(** * Curve filling of the discount-rate term structure

    A shallow embedding of [calibration/interpolation.py]
    ([interpolate_rate], [extrapolate_early], [extrapolate_late]) and of the
    parameter dictionary [DEFAULT_PARAMS] of [config/config.py].

    Modelling choices:
    - Python and numpy floats are Rocq's primitive binary64 floats, so the
      arithmetic (rounding, NaN, division by zero giving inf/nan as numpy
      scalars do) is the one the code performs.
    - The [days] column holds integers ([Z]); an integer operand of a float
      operation is converted with [float_of_Z], as numpy does.
    - A DataFrame is the list of its rows, in index order.  [ignore_index]
      renumbering is not represented.
    - A row is a record.  The optional columns [reference_price] and
      [forward_ratio] are [option float]: [None] when the row (Series) has no
      such key, [Some x] otherwise, where [x] may be NaN (a null cell).
    - The option-market columns hold [option float]; [None] is Python None.
    - A configuration dictionary is a [gmap string pyval]. *)

From Stdlib Require Import ZArith Floats Uint63 Sorting.Permutation Sorting.Sorted.
From stdpp Require Import base gmap strings list.

Local Set Warnings "-inexact-float".

(* ------------------------------------------------------------------ *)
(** ** Python scalars *)

(** [float(z)] for an int64 [z]: round-to-nearest conversion. *)
Definition float_of_Z (z : Z) : float :=
  if (z <? 0)%Z then (- of_uint63 (Uint63.of_Z (- z)))%float
  else of_uint63 (Uint63.of_Z z).

(** Python's builtin [max(a, b)]: [a] is kept unless [b > a]. *)
Definition py_max (a b : float) : float := if (a <? b)%float then b else a.

(** Python's builtin [min(a, b)]: [a] is kept unless [b < a]. *)
Definition py_min (a b : float) : float := if (b <? a)%float then b else a.

(** Values stored in the configuration dictionaries. *)
Inductive pyval :=
| PyInt (z : Z)
| PyFloat (f : float)
| PyBool (b : bool)
| PyStr (s : string)
| PyNone.

(** Exceptions the modelled code can raise. *)
Inductive exc := IndexError | KeyError | TypeError.

(** A computation that returns a value or raises. *)
Inductive result (A : Type) := Ok (a : A) | Raise (e : exc).
Arguments Ok {A} a.
Arguments Raise {A} e.

Definition bind {A B} (m : result A) (k : A -> result B) : result B :=
  match m with Ok a => k a | Raise e => Raise e end.

Notation "'let*' x := m 'in' k" := (bind m (fun x => k))
  (at level 200, x name, m at level 100, k at level 200).

(** [n < v] for the int [n = len(df)] and a configuration value [v]:
    bools compare as 0/1, ints exactly, floats numerically; [None] and
    strings raise [TypeError]. *)
Definition py_len_lt (n : nat) (v : pyval) : result bool :=
  match v with
  | PyInt z => Ok (Z.of_nat n <? z)%Z
  | PyBool b => Ok (Z.of_nat n <? if b then 1 else 0)%Z
  | PyFloat f => Ok (float_of_Z (Z.of_nat n) <? f)%float
  | PyStr _ | PyNone => Raise TypeError
  end.

(** [d[key]]: [KeyError] when the key is missing. *)
Definition dict_get (d : gmap string pyval) (key : string) : result pyval :=
  match d !! key with Some v => Ok v | None => Raise KeyError end.

(** A dict display [{k1: v1, k2: v2, ...}]: entries are stored left to
    right, so a repeated key keeps its last value. *)
Definition dict_literal (kvs : list (string * pyval)) : gmap string pyval :=
  foldl (fun m kv => <[kv.1 := kv.2]> m) ∅ kvs.

(* ------------------------------------------------------------------ *)
(** ** config/config.py *)

Definition DEFAULT_PARAMS_entries : list (string * pyval) :=
  [ ("initial_rate", PyFloat 0.05);
    ("min_rate", PyFloat 0.0);
    ("max_rate", PyFloat 0.2);
    ("fallback_growth", PyFloat 0.03);
    ("consider_volume", PyBool false);
    ("reference_date", PyNone);
    ("monthlies", PyBool true);
    ("option_type", PyStr "call");
    ("q", PyFloat 0.0);
    ("max_iterations", PyInt 50);
    ("max_strike_diff_pct", PyFloat 0.05);
    ("min_option_price", PyFloat 0.0);
    ("min_options_per_expiry", PyInt 2);
    ("volatility_lower_bound", PyFloat 0.001);
    ("volatility_upper_bound", PyInt 10);
    ("vol_lb_scalar", PyFloat 0.5);
    ("vol_ub_scalar", PyFloat 1.5);
    ("min_days", PyInt 7);
    ("min_volume", PyInt 0);
    ("wait_time", PyFloat 0.5);
    ("forward_prices", PyNone);
    ("max_strike_diff_pct", PyFloat 0.5);
    ("min_option_price", PyFloat 0.0);
    ("min_pair_volume", PyInt 0);
    ("best_pair_only", PyBool false);
    ("close_strike_min_pairs", PyInt 3);
    ("debug_threshold", PyFloat 0.0);
    ("min_forward_ratio", PyFloat 0.5);
    ("max_forward_ratio", PyFloat 2.0);
    ("min_price", PyFloat 0.0);
    ("debug", PyBool true);
    ("save_output", PyBool false);
    ("skip_iv_calculation", PyBool true);
    ("use_forwards", PyBool true);
    ("calibration_method", PyStr "direct");
    ("min_int_rate", PyFloat (-0.20));
    ("max_int_rate", PyFloat 1.00) ]%string.

Definition DEFAULT_PARAMS : gmap string pyval := dict_literal DEFAULT_PARAMS_entries.

(** [params = DEFAULT_PARAMS.copy(); params.update(kwargs)]: the keys of
    [kwargs] override those of the copy. *)
Definition overlay (defaults kwargs : gmap string pyval) : gmap string pyval :=
  kwargs ∪ defaults.

(* ------------------------------------------------------------------ *)
(** ** The term-structure table *)

Module Row.
Record t := mk {
  expiry_date : Z;
  days : Z;
  years : float;
  discount_rate : float;
  method : string;
  reference_price : option float;
  forward_ratio : option float;
  put_strike : option float;
  call_strike : option float;
  put_price : option float;
  call_price : option float;
  put_iv : option float;
  call_iv : option float;
  iv_diff : option float }.
End Row.

Definition table := list Row.t.

(** The row placed by [df.sort_values('days', ascending=asc)] in front of
    another: a stable sort, ties keep their index order in both
    directions (pandas reverses, sorts and reverses back for
    [ascending=False]). *)
Definition goes_first (asc : bool) (r x : Row.t) : bool :=
  if asc then (Row.days r <=? Row.days x)%Z else (Row.days x <=? Row.days r)%Z.

Fixpoint insert_row (asc : bool) (r : Row.t) (l : table) : table :=
  match l with
  | [] => [r]
  | x :: l' => if goes_first asc r x then r :: l else x :: insert_row asc r l'
  end.

(** [df.sort_values('days', ascending=asc)] *)
Fixpoint sort_values (asc : bool) (df : table) : table :=
  match df with
  | [] => []
  | r :: df' => insert_row asc r (sort_values asc df')
  end.

(** [df.iloc[i]] *)
Definition iloc (df : table) (i : nat) : result Row.t :=
  match df !! i with Some r => Ok r | None => Raise IndexError end.

(** [pd.concat([df, pd.DataFrame([new_row])], ignore_index=True)] *)
Definition append_row (df : table) (new_row : Row.t) : table := df ++ [new_row].

(** A row synthesized by the curve filler: the option-market fields are
    None, the optional columns are set only when a value was computed. *)
Definition synth_row (expiry_date days : Z) (years rate : float) (method : string)
    (reference_price forward_ratio : option float) : Row.t :=
  Row.mk expiry_date days years rate method reference_price forward_ratio
    None None None None None None None.

(* ------------------------------------------------------------------ *)
(** ** interpolate_rate *)

(** Lines 29-37: [before] heads the rows with smaller days sorted
    descending, [after] heads the rows with larger days sorted ascending;
    [None] when either side is empty. *)
Definition interp_neighbors (df : table) (days : Z) : option (Row.t * Row.t) :=
  let before_df := sort_values false (List.filter (fun r => Row.days r <? days)%Z df) in
  let after_df := sort_values true (List.filter (fun r => days <? Row.days r)%Z df) in
  match before_df, after_df with
  | before :: _, after :: _ => Some (before, after)
  | _, _ => None
  end.

(** Lines 47-51: interpolation of an optional column, computed when both
    rows carry the key. *)
Definition interp_value (days_frac : float) (b a : option float) : option float :=
  match b, a with
  | Some vb, Some va => Some (vb + days_frac * (va - vb))%float
  | _, _ => None
  end.

(** Lines 40-77: the interpolated row. *)
Definition interp_new_row (before after : Row.t) (expiry_date days : Z) (years : float) : Row.t :=
  let days_range := (Row.days after - Row.days before)%Z in
  let days_frac := (float_of_Z (days - Row.days before) / float_of_Z days_range)%float in
  let rate := (Row.discount_rate before
               + days_frac * (Row.discount_rate after - Row.discount_rate before))%float in
  let reference_price := interp_value days_frac (Row.reference_price before) (Row.reference_price after) in
  let forward_ratio := interp_value days_frac (Row.forward_ratio before) (Row.forward_ratio after) in
  synth_row expiry_date days years rate "interpolated" reference_price forward_ratio.

Definition interpolate_rate (df : table) (expiry_date days : Z) (years : float) : table :=
  match interp_neighbors df days with
  | None => df
  | Some (before, after) => append_row df (interp_new_row before after expiry_date days years)
  end.

(* ------------------------------------------------------------------ *)
(** ** extrapolate_early *)

(** Lines 111-112: the first two rows of the ascending sort. *)
Definition early_anchors (df : table) : result (Row.t * Row.t) :=
  let* first := iloc (sort_values true df) 0 in
  let* second := iloc (sort_values true df) 1 in
  Ok (first, second).

(** Lines 115-119 (and 126-128, 132-134): [days_diff = second.days -
    first.days]; the per-day change is [(v2 - v1) / days_diff] and the value
    is projected backward from [first]. *)
Definition early_projection (first second : Row.t) (v1 v2 : float) (days : Z) : float :=
  let days_diff := (Row.days second - Row.days first)%Z in
  let daily_change := ((v2 - v1) / float_of_Z days_diff)%float in
  (v1 - float_of_Z (Row.days first - days) * daily_change)%float.

Definition early_value (first second : Row.t) (o1 o2 : option float) (days : Z) : option float :=
  match o1, o2 with
  | Some v1, Some v2 => Some (py_max 0.0 (early_projection first second v1 v2 days))
  | _, _ => None
  end.

(** Lines 114-161: the row extrapolated before [first]. *)
Definition early_new_row (first second : Row.t) (expiry_date days : Z) (years : float) : Row.t :=
  let extrapolated_rate :=
    early_projection first second (Row.discount_rate first) (Row.discount_rate second) days in
  let extrapolated_rate := py_max 0.0 extrapolated_rate in
  let reference_price :=
    early_value first second (Row.reference_price first) (Row.reference_price second) days in
  let forward_ratio :=
    early_value first second (Row.forward_ratio first) (Row.forward_ratio second) days in
  synth_row expiry_date days years extrapolated_rate "extrapolated" reference_price forward_ratio.

(** Lines 106-164, once [params] is built. *)
Definition extrapolate_early_with (params : gmap string pyval) (df : table)
    (expiry_date days : Z) (years : float) : result table :=
  let* threshold := dict_get params "min_options_per_expiry" in
  let* too_few := py_len_lt (length df) threshold in
  if too_few then Ok df else
  let* anchors := early_anchors df in
  let '(first, second) := anchors in
  Ok (append_row df (early_new_row first second expiry_date days years)).

Definition extrapolate_early (df : table) (expiry_date days : Z) (years : float)
    (kwargs : gmap string pyval) : result table :=
  extrapolate_early_with (overlay DEFAULT_PARAMS kwargs) df expiry_date days years.

(* ------------------------------------------------------------------ *)
(** ** extrapolate_late *)

(** Lines 196-197: the first two rows of the descending sort. *)
Definition late_anchors (df : table) : result (Row.t * Row.t) :=
  let* last := iloc (sort_values false df) 0 in
  let* second_last := iloc (sort_values false df) 1 in
  Ok (last, second_last).

(** Lines 200-204 (and 211-213, 218-220): [days_diff = last.days -
    second_last.days]; the value is projected forward from [last]. *)
Definition late_projection (last second_last : Row.t) (v_last v_second : float) (days : Z) : float :=
  let days_diff := (Row.days last - Row.days second_last)%Z in
  let daily_change := ((v_last - v_second) / float_of_Z days_diff)%float in
  (v_last + float_of_Z (days - Row.days last) * daily_change)%float.

(** Lines 210-221: floored at the last observed value. *)
Definition late_value (last second_last : Row.t) (o_last o_second : option float) (days : Z)
    : option float :=
  match o_last, o_second with
  | Some vl, Some vs => Some (py_max vl (late_projection last second_last vl vs days))
  | _, _ => None
  end.

(** Lines 199-247: the row extrapolated after [last]. *)
Definition late_new_row (last second_last : Row.t) (expiry_date days : Z) (years : float) : Row.t :=
  let extrapolated_rate :=
    late_projection last second_last (Row.discount_rate last) (Row.discount_rate second_last) days in
  let extrapolated_rate := py_max 0.0 (py_min 0.2 extrapolated_rate) in
  let reference_price :=
    late_value last second_last (Row.reference_price last) (Row.reference_price second_last) days in
  let forward_ratio :=
    late_value last second_last (Row.forward_ratio last) (Row.forward_ratio second_last) days in
  synth_row expiry_date days years extrapolated_rate "extrapolated" reference_price forward_ratio.

(** Lines 191-250, once [params] is built. *)
Definition extrapolate_late_with (params : gmap string pyval) (df : table)
    (expiry_date days : Z) (years : float) : result table :=
  let* threshold := dict_get params "min_options_per_expiry" in
  let* too_few := py_len_lt (length df) threshold in
  if too_few then Ok df else
  let* anchors := late_anchors df in
  let '(last, second_last) := anchors in
  Ok (append_row df (late_new_row last second_last expiry_date days years)).

Definition extrapolate_late (df : table) (expiry_date days : Z) (years : float)
    (kwargs : gmap string pyval) : result table :=
  extrapolate_late_with (overlay DEFAULT_PARAMS kwargs) df expiry_date days years.

(* ------------------------------------------------------------------ *)
(** ** Sample rows *)

(** An observed row with the given days, rate and optional columns. *)
Definition obs (days : Z) (rate : float) (rp fr : option float) : Row.t :=
  Row.mk 0 days (float_of_Z days / 365)%float rate "observed" rp fr
    None None None None None None None.

(** The table of property P1. *)
Definition p1_table : table := [obs 10 0.02 None None; obs 30 0.04 None None].

(** A table whose [reference_price] column has a null (NaN) cell. *)
Definition c3_table : table := [obs 10 0.02 (Some 100%float) None; obs 30 0.04 (Some nan) None].

(** Tables with duplicate days: two rows share the lowest days, or two rows
    share the highest days. *)
Definition dup_low_table : table := [obs 10 0.02 None None; obs 10 0.03 None None; obs 30 0.04 None None].
Definition dup_high_table : table := [obs 10 0.02 None None; obs 30 0.03 None None; obs 30 0.04 None None].

(** The table of property P4. *)
Definition p4_table : table := [obs 300 0.05 None None; obs 365 0.18 None None].

(** A table whose last two reference prices fall by 1 per day. *)
Definition p5_table : table :=
  [obs 364 0.05 (Some 101%float) None; obs 365 0.05 (Some 100%float) None].

(* ------------------------------------------------------------------ *)
(** ** The object store: [DEFAULT_PARAMS] and the per-call copies *)

(** The dictionary objects, by location. *)
Abbreviation loc := positive.
Abbreviation heap := (gmap positive (gmap string pyval)).

(** The object bound to the global name [DEFAULT_PARAMS] (imported by
    [calibration/interpolation.py] from [config.config]). *)
Definition DEFAULT_PARAMS_loc : loc := 1%positive.

(** The store once [config.config] is loaded. *)
Definition init_heap : heap := {[ DEFAULT_PARAMS_loc := DEFAULT_PARAMS ]}.

(** [d.copy()]: a new dictionary object with the entries of [d]. *)
Definition dict_copy (l : loc) (h : heap) : loc * heap :=
  let l' := fresh (dom h) in (l', <[l' := h !!! l]> h).

(** [d.update(kwargs)], in place. *)
Definition dict_update (l : loc) (kwargs : gmap string pyval) (h : heap) : heap :=
  <[l := kwargs ∪ (h !!! l)]> h.

(** Lines 103-104 and 188-189:
    [params = DEFAULT_PARAMS.copy(); params.update(kwargs)]. *)
Definition build_params (kwargs : gmap string pyval) (h : heap) : loc * heap :=
  let '(params, h1) := dict_copy DEFAULT_PARAMS_loc h in
  (params, dict_update params kwargs h1).

(** A call of one of the three operations. *)
Inductive call :=
| InterpCall (df : table) (expiry_date days : Z) (years : float)
| EarlyCall (df : table) (expiry_date days : Z) (years : float) (kwargs : gmap string pyval)
| LateCall (df : table) (expiry_date days : Z) (years : float) (kwargs : gmap string pyval).

(** What a call returns with the configuration of [config.py]. *)
Definition call_result (c : call) : result table :=
  match c with
  | InterpCall df e d y => Ok (interpolate_rate df e d y)
  | EarlyCall df e d y kw => extrapolate_early df e d y kw
  | LateCall df e d y kw => extrapolate_late df e d y kw
  end.

(** [extrapolate_early] over the store. *)
Definition extrapolate_early_st (df : table) (expiry_date days : Z) (years : float)
    (kwargs : gmap string pyval) (h : heap) : result table * heap :=
  let '(params, h1) := build_params kwargs h in
  (extrapolate_early_with (h1 !!! params) df expiry_date days years, h1).

(** [extrapolate_late] over the store. *)
Definition extrapolate_late_st (df : table) (expiry_date days : Z) (years : float)
    (kwargs : gmap string pyval) (h : heap) : result table * heap :=
  let '(params, h1) := build_params kwargs h in
  (extrapolate_late_with (h1 !!! params) df expiry_date days years, h1).

Definition run_call (c : call) (h : heap) : result table * heap :=
  match c with
  | InterpCall df e d y => (Ok (interpolate_rate df e d y), h)
  | EarlyCall df e d y kw => extrapolate_early_st df e d y kw h
  | LateCall df e d y kw => extrapolate_late_st df e d y kw h
  end.

(** A program that makes the calls [cs] one after the other. *)
Fixpoint run_calls (cs : list call) (h : heap) : list (result table) * heap :=
  match cs with
  | [] => ([], h)
  | c :: cs' =>
      let '(out, h1) := run_call c h in
      let '(outs, h2) := run_calls cs' h1 in
      (out :: outs, h2)
  end.

(* ------------------------------------------------------------------ *)
(** ** Observable parts of a synthesized row *)

(** The option-market columns of a row are all None. *)
Definition market_fields_null (r : Row.t) : Prop :=
  Row.put_strike r = None /\ Row.call_strike r = None /\ Row.put_price r = None /\
  Row.call_price r = None /\ Row.put_iv r = None /\ Row.call_iv r = None /\
  Row.iv_diff r = None.

(** Two calls on the tables [df] and [df'] have the same outcome: both
    append the same rows, or both raise the same exception. *)
Definition same_additions (df df' : table) (o o' : result table) : Prop :=
  (exists added, o = Ok (df ++ added) /\ o' = Ok (df' ++ added)) \/
  (exists err, o = Raise err /\ o' = Raise err).

(** Observed rows at days 10, 20 and 30. *)
Definition dense_table : table :=
  [obs 10 0.02 None None; obs 20 0.03 None None; obs 30 0.04 None None].

(* ------------------------------------------------------------------ *)
(** ** Order of binary64 comparisons *)

Section FloatOrder.

Lemma SFcompare_swap (x y : spec_float) :
  SFcompare y x = option_map CompOpp (SFcompare x y).
Proof.
  destruct x as [s1|s1| |s1 m1 e1], y as [s2|s2| |s2 m2 e2]; simpl;
    try destruct s1; try destruct s2; simpl; try reflexivity;
    rewrite (Z.compare_antisym e1 e2);
    destruct (Z.compare e1 e2); simpl; try reflexivity;
    pose proof (Pos.compare_cont_antisym m1 m2 Eq) as A; simpl in A;
    now rewrite <- A.
Qed.

Lemma float_ltb_asym (x y : float) : (x <? y)%float = true -> (y <? x)%float = false.
Proof.
  rewrite !FloatAxioms.ltb_spec. unfold SFltb. rewrite (SFcompare_swap (Prim2SF x) (Prim2SF y)).
  destruct (SFcompare (Prim2SF x) (Prim2SF y)) as [[]|]; simpl; intros H;
    first [reflexivity | discriminate H].
Qed.

Lemma float_ltb_irrefl (x : float) : (x <? x)%float = false.
Proof.
  destruct (x <? x)%float eqn:E; [|reflexivity].
  pose proof (float_ltb_asym x x E). congruence.
Qed.

Lemma float_ltb_leb (x y : float) : (x <? y)%float = true -> (x <=? y)%float = true.
Proof.
  rewrite FloatAxioms.ltb_spec, FloatAxioms.leb_spec. unfold SFltb, SFleb.
  destruct (SFcompare (Prim2SF x) (Prim2SF y)) as [[]|]; intros H;
    first [reflexivity | discriminate H].
Qed.

End FloatOrder.

(** [max(0.0, x)]: never below zero, [x] itself once positive, zero
    once [x] is negative. *)
Lemma py_max_zero_nonneg (x : float) : (0 <=? py_max 0 x)%float = true.
Proof.
  unfold py_max. destruct (0 <? x)%float eqn:E.
  - now apply float_ltb_leb.
  - reflexivity.
Qed.

Lemma py_max_neg (a x : float) : (x <? a)%float = true -> py_max a x = a.
Proof.
  intros H. unfold py_max. now rewrite (float_ltb_asym _ _ H).
Qed.

Lemma py_max_not_below (a x : float) : (py_max a x <? a)%float = false.
Proof.
  unfold py_max. destruct (a <? x)%float eqn:E.
  - now apply float_ltb_asym.
  - apply float_ltb_irrefl.
Qed.

(** [max(0.0, min(0.2, x))] lies in the band [[0, 0.2]]. *)
Lemma py_clamp_band (x : float) :
  (0 <=? py_max 0 (py_min 0.2 x))%float = true /\
  (py_max 0 (py_min 0.2 x) <=? 0.2)%float = true.
Proof.
  split; [apply py_max_zero_nonneg|].
  unfold py_max, py_min.
  destruct (x <? 0.2)%float eqn:E1; destruct (0 <? _)%float; try reflexivity.
  now apply float_ltb_leb.
Qed.

(* ------------------------------------------------------------------ *)
(** ** The stable sort by days *)

Section Sorting.

Variable asc : bool.

Lemma insert_row_perm (r : Row.t) (l : table) : Permutation (insert_row asc r l) (r :: l).
Proof.
  induction l as [|x l IH]; simpl; [reflexivity|].
  destruct (goes_first asc r x); [reflexivity|].
  rewrite IH. apply perm_swap.
Qed.

Lemma sort_values_perm (l : table) : Permutation (sort_values asc l) l.
Proof.
  induction l as [|r l IH]; simpl; [reflexivity|].
  rewrite insert_row_perm. now constructor.
Qed.

Let R (a b : Row.t) : Prop := goes_first asc a b = true.

Lemma goes_first_total (a b : Row.t) : goes_first asc a b = false -> R b a.
Proof. unfold R, goes_first. destruct asc; intros H; apply Z.leb_gt in H; apply Z.leb_le; lia. Qed.

Lemma goes_first_trans (a b c : Row.t) : R a b -> R b c -> R a c.
Proof. unfold R, goes_first. destruct asc; rewrite !Z.leb_le; lia. Qed.

Lemma insert_row_sorted (r : Row.t) (l : table) :
  StronglySorted R l -> StronglySorted R (insert_row asc r l).
Proof.
  induction l as [|x l IH]; intros Hs; simpl.
  - repeat constructor.
  - apply StronglySorted_inv in Hs as [Hl Hx].
    destruct (goes_first asc r x) eqn:E.
    + constructor; [now constructor|].
      constructor; [exact E|].
      eapply Forall_impl; [exact Hx|]. intros y Hy. eapply goes_first_trans; eauto.
    + constructor; [now apply IH|].
      apply Permutation_Forall with (r :: l); [symmetry; apply insert_row_perm|].
      constructor; [now apply goes_first_total|exact Hx].
Qed.

Lemma sort_values_sorted (l : table) : StronglySorted R (sort_values asc l).
Proof.
  induction l as [|r l IH]; simpl; [constructor|]. now apply insert_row_sorted.
Qed.

End Sorting.

Lemma sort_values_length (asc : bool) (l : table) : length (sort_values asc l) = length l.
Proof. apply Permutation_length, sort_values_perm. Qed.

Lemma sort_values_head (asc : bool) (l t : table) (h : Row.t) :
  sort_values asc l = h :: t ->
  In h l /\ forall x, In x l -> goes_first asc h x = true.
Proof.
  intros E. pose proof (sort_values_perm asc l) as P. rewrite E in P.
  pose proof (sort_values_sorted asc l) as S. rewrite E in S.
  apply StronglySorted_inv in S as [_ Hf].
  split; [eapply Permutation_in; [exact P|now left]|].
  intros x Hx. apply (Permutation_in _ (Permutation_sym P)) in Hx as [<-|Hx].
  - unfold goes_first. destruct asc; apply Z.leb_le; lia.
  - rewrite List.Forall_forall in Hf. exact (Hf x Hx).
Qed.

Lemma sort_values_two (asc : bool) (l t : table) (h1 h2 : Row.t) :
  sort_values asc l = h1 :: h2 :: t ->
  Permutation l (h1 :: h2 :: t) /\ goes_first asc h1 h2 = true /\
  forall x, In x t -> goes_first asc h2 x = true.
Proof.
  intros E. pose proof (sort_values_perm asc l) as P. rewrite E in P.
  pose proof (sort_values_sorted asc l) as S. rewrite E in S.
  apply StronglySorted_inv in S as [S Hf1].
  apply StronglySorted_inv in S as [_ Hf2].
  split; [now symmetry|]. split.
  - now inversion Hf1.
  - apply List.Forall_forall; exact Hf2.
Qed.

(** What [interp_neighbors] selects: the closest row strictly below and the
    closest row strictly above the target. *)
Lemma interp_neighbors_spec (df : table) (days : Z) (before after : Row.t) :
  interp_neighbors df days = Some (before, after) ->
  In before df /\ (Row.days before < days)%Z /\
  (forall r, In r df -> (Row.days r < days)%Z -> (Row.days r <= Row.days before)%Z) /\
  In after df /\ (days < Row.days after)%Z /\
  (forall r, In r df -> (days < Row.days r)%Z -> (Row.days after <= Row.days r)%Z).
Proof.
  unfold interp_neighbors.
  destruct (sort_values false _) as [|b tb] eqn:Eb; [discriminate|].
  destruct (sort_values true _) as [|a ta] eqn:Ea; [discriminate|].
  intros H. injection H as <- <-.
  apply sort_values_head in Eb as [Inb Hb]. apply sort_values_head in Ea as [Ina Ha].
  apply filter_In in Inb as [Inb Lb]. apply filter_In in Ina as [Ina La].
  apply Z.ltb_lt in Lb, La.
  repeat split; auto.
  - intros r Hr Lr. specialize (Hb r). unfold goes_first in Hb. apply Z.leb_le, Hb.
    apply filter_In. split; [exact Hr|]. now apply Z.ltb_lt.
  - intros r Hr Lr. specialize (Ha r). unfold goes_first in Ha. apply Z.leb_le, Ha.
    apply filter_In. split; [exact Hr|]. now apply Z.ltb_lt.
Qed.

Lemma sort_values_nil (asc : bool) (l : table) : sort_values asc l = [] <-> l = [].
Proof.
  pose proof (sort_values_length asc l) as L.
  destruct (sort_values asc l), l; simpl in L; split; congruence.
Qed.

Lemma filter_nil_iff (f : Row.t -> bool) (l : table) :
  List.filter f l = [] <-> forall x, In x l -> f x = false.
Proof.
  induction l as [|y l IH]; simpl.
  - split; [intros _ x []|reflexivity].
  - destruct (f y) eqn:E; split.
    + discriminate.
    + intros H. specialize (H y (or_introl eq_refl)). congruence.
    + intros H x [<-|Hx]; [exact E|]. now apply IH.
    + intros H. apply IH. intros x Hx. apply H. now right.
Qed.

Lemma interp_neighbors_none (df : table) (days : Z) :
  interp_neighbors df days = None <->
  (forall r, In r df -> ~ (Row.days r < days)%Z) \/ (forall r, In r df -> ~ (days < Row.days r)%Z).
Proof.
  assert (Hb : sort_values false (List.filter (fun r => Row.days r <? days)%Z df) = [] <->
               forall r, In r df -> ~ (Row.days r < days)%Z).
  { rewrite sort_values_nil, filter_nil_iff.
    split; intros H r Hr; specialize (H r Hr); [apply Z.ltb_ge in H; lia|].
    apply Z.ltb_ge; lia. }
  assert (Ha : sort_values true (List.filter (fun r => days <? Row.days r)%Z df) = [] <->
               forall r, In r df -> ~ (days < Row.days r)%Z).
  { rewrite sort_values_nil, filter_nil_iff.
    split; intros H r Hr; specialize (H r Hr); [apply Z.ltb_ge in H; lia|].
    apply Z.ltb_ge; lia. }
  rewrite <- Hb, <- Ha. unfold interp_neighbors.
  destruct (sort_values false _), (sort_values true _); intuition congruence.
Qed.

(** What the extrapolation anchors are: the two lowest-days rows (early) or
    the two highest-days rows (late). *)
Lemma early_anchors_spec (df : table) (first second : Row.t) :
  early_anchors df = Ok (first, second) ->
  exists rest, Permutation df (first :: second :: rest) /\
    (Row.days first <= Row.days second)%Z /\
    (forall r, In r rest -> (Row.days second <= Row.days r)%Z).
Proof.
  unfold early_anchors, iloc.
  destruct (sort_values true df) as [|f [|s rest]] eqn:E; simpl; try discriminate.
  intros H. injection H as <- <-.
  apply sort_values_two in E as (P & H12 & Hr). exists rest.
  unfold goes_first in *. split; [exact P|]. split; [now apply Z.leb_le|].
  intros r Ir. now apply Z.leb_le, Hr.
Qed.

Lemma late_anchors_spec (df : table) (last second_last : Row.t) :
  late_anchors df = Ok (last, second_last) ->
  exists rest, Permutation df (last :: second_last :: rest) /\
    (Row.days second_last <= Row.days last)%Z /\
    (forall r, In r rest -> (Row.days r <= Row.days second_last)%Z).
Proof.
  unfold late_anchors, iloc.
  destruct (sort_values false df) as [|f [|s rest]] eqn:E; simpl; try discriminate.
  intros H. injection H as <- <-.
  apply sort_values_two in E as (P & H12 & Hr). exists rest.
  unfold goes_first in *. split; [exact P|]. split; [now apply Z.leb_le|].
  intros r Ir. now apply Z.leb_le, Hr.
Qed.

Lemma early_anchors_ok (df : table) :
  (2 <= length df)%nat -> exists first second, early_anchors df = Ok (first, second).
Proof.
  intros H. unfold early_anchors, iloc.
  pose proof (sort_values_length true df) as L.
  destruct (sort_values true df) as [|f [|s rest]]; simpl in L; try lia.
  simpl. eauto.
Qed.

Lemma late_anchors_ok (df : table) :
  (2 <= length df)%nat -> exists last second_last, late_anchors df = Ok (last, second_last).
Proof.
  intros H. unfold late_anchors, iloc.
  pose proof (sort_values_length false df) as L.
  destruct (sort_values false df) as [|f [|s rest]]; simpl in L; try lia.
  simpl. eauto.
Qed.

(** The table of property P1. *)
(* ------------------------------------------------------------------ *)
(** ** Helper facts about the operations *)

Lemma interpolate_rate_some (df : table) (expiry_date days : Z) (years : float) (before after : Row.t) :
  interp_neighbors df days = Some (before, after) ->
  interpolate_rate df expiry_date days years
  = df ++ [interp_new_row before after expiry_date days years].
Proof. intros H. unfold interpolate_rate. now rewrite H. Qed.

Lemma interpolate_rate_none (df : table) (expiry_date days : Z) (years : float) :
  interp_neighbors df days = None -> interpolate_rate df expiry_date days years = df.
Proof. intros H. unfold interpolate_rate. now rewrite H. Qed.

Lemma overlay_lookup (kwargs : gmap string pyval) (k : string) :
  overlay DEFAULT_PARAMS kwargs !! k =
  match kwargs !! k with Some v => Some v | None => DEFAULT_PARAMS !! k end.
Proof.
  unfold overlay. rewrite lookup_union.
  destruct (kwargs !! k), (DEFAULT_PARAMS !! k); reflexivity.
Qed.

Lemma DEFAULT_PARAMS_min_options : DEFAULT_PARAMS !! "min_options_per_expiry"%string = Some (PyInt 2).
Proof. vm_compute. reflexivity. Qed.

Lemma app_one_neq (df : table) (r : Row.t) : df <> df ++ [r].
Proof. intros E. apply (f_equal (@length Row.t)) in E. rewrite length_app in E. simpl in E. lia. Qed.

(** Once the threshold is read and the gate passes, the extrapolators
    append the row built from their anchors. *)
Lemma extrapolate_early_with_pass (params : gmap string pyval) (df : table)
    (expiry_date days : Z) (years : float) (threshold : pyval) (first second : Row.t) :
  params !! "min_options_per_expiry"%string = Some threshold ->
  py_len_lt (length df) threshold = Ok false ->
  early_anchors df = Ok (first, second) ->
  extrapolate_early_with params df expiry_date days years
  = Ok (df ++ [early_new_row first second expiry_date days years]).
Proof.
  intros H1 H2 H3. unfold extrapolate_early_with, dict_get. rewrite H1. simpl.
  rewrite H2. simpl. now rewrite H3.
Qed.

Lemma extrapolate_late_with_pass (params : gmap string pyval) (df : table)
    (expiry_date days : Z) (years : float) (threshold : pyval) (last second_last : Row.t) :
  params !! "min_options_per_expiry"%string = Some threshold ->
  py_len_lt (length df) threshold = Ok false ->
  late_anchors df = Ok (last, second_last) ->
  extrapolate_late_with params df expiry_date days years
  = Ok (df ++ [late_new_row last second_last expiry_date days years]).
Proof.
  intros H1 H2 H3. unfold extrapolate_late_with, dict_get. rewrite H1. simpl.
  rewrite H2. simpl. now rewrite H3.
Qed.

Lemma float_of_Z_0 : float_of_Z 0 = 0%float.
Proof. vm_compute. reflexivity. Qed.

(** NaN is absorbing for [+], [-] and [*]: an interpolation
    [vb + f * (va - vb)] with a NaN end point is NaN. *)
Lemma is_nan_of_SF (x : float) : Prim2SF x = S754_nan -> is_nan x = true.
Proof.
  intros H. unfold is_nan. rewrite FloatAxioms.eqb_spec, H. reflexivity.
Qed.

Lemma interp_formula_nan (vb va f : float) :
  (is_nan vb || is_nan va)%bool = true -> is_nan (vb + f * (va - vb))%float = true.
Proof.
  intros H. apply is_nan_of_SF.
  assert (Hn : Prim2SF vb = S754_nan \/ Prim2SF va = S754_nan).
  { unfold is_nan in H. rewrite !FloatAxioms.eqb_spec in H. unfold SFeqb in H.
    destruct (Prim2SF vb) as [s1|s1| |s1 m1 e1], (Prim2SF va) as [s2|s2| |s2 m2 e2];
      simpl in H; auto; try destruct s1; try destruct s2; simpl in H;
      rewrite ?Z.compare_refl, ?Pos.compare_cont_refl in H; simpl in H; discriminate H. }
  rewrite FloatAxioms.add_spec, FloatAxioms.mul_spec, FloatAxioms.sub_spec.
  unfold SF64add, SF64mul, SF64sub.
  destruct Hn as [Hn|Hn]; rewrite Hn.
  - reflexivity.
  - destruct (Prim2SF vb), (Prim2SF f); reflexivity.
Qed.

(* ------------------------------------------------------------------ *)
(** ** Claims *)

(** C1: when the table has a row strictly below and a row strictly above
    the target days, [interpolate_rate] appends exactly one row, whose
    discount rate is [before.rate + f * (after.rate - before.rate)] with
    [f = (days - before.days) / (after.days - before.days)], [before] the
    row with the largest days below the target and [after] the row with the
    smallest days above it.  On the rows [{10: 0.02, 30: 0.04}] at days 20
    the appended rate is 0.03. *)
Theorem interpolate_rate_correct :
  (forall (df : table) (expiry_date days : Z) (years : float),
    (exists r, In r df /\ (Row.days r < days)%Z) ->
    (exists r, In r df /\ (days < Row.days r)%Z) ->
    exists before after new_row,
      In before df /\ (Row.days before < days)%Z /\
      (forall r, In r df -> (Row.days r < days)%Z -> (Row.days r <= Row.days before)%Z) /\
      In after df /\ (days < Row.days after)%Z /\
      (forall r, In r df -> (days < Row.days r)%Z -> (Row.days after <= Row.days r)%Z) /\
      interpolate_rate df expiry_date days years = df ++ [new_row] /\
      Row.discount_rate new_row =
        (Row.discount_rate before
         + (float_of_Z (days - Row.days before) / float_of_Z (Row.days after - Row.days before))
           * (Row.discount_rate after - Row.discount_rate before))%float) /\
  (exists new_row,
    interpolate_rate p1_table 0 20 (float_of_Z 20 / 365) = p1_table ++ [new_row] /\
    Row.discount_rate new_row = 0.03%float).
Proof.
  split.
  - intros df expiry_date days years [rb [Ib Lb]] [ra [Ia La]].
    destruct (interp_neighbors df days) as [[before after]|] eqn:E.
    + pose proof (interp_neighbors_spec _ _ _ _ E) as Hs.
      exists before, after, (interp_new_row before after expiry_date days years).
      intuition. now apply interpolate_rate_some.
    + apply interp_neighbors_none in E as [E|E].
      * now destruct (E rb Ib).
      * now destruct (E ra Ia).
  - eexists. split; [reflexivity|]. vm_compute. reflexivity.
Qed.

Lemma interpolate_rate_correct_witness :
  exists before after new_row,
    interpolate_rate p1_table 0 20 0.05 = p1_table ++ [new_row] /\
    Row.days before = 10%Z /\ Row.days after = 30%Z.
Proof.
  destruct (proj1 interpolate_rate_correct p1_table 0%Z 20%Z 0.05%float)
    as (before & after & new_row & Ib & Lb & Mb & Ia & La & Ma & E & _).
  - exists (obs 10 0.02 None None). split; [now left|]. simpl. lia.
  - exists (obs 30 0.04 None None). split; [right; now left|]. simpl. lia.
  - exists before, after, new_row. split; [exact E|].
    simpl in Ib, Ia. split.
    + destruct Ib as [<-|[<-|[]]]; simpl in *; lia.
    + destruct Ia as [<-|[<-|[]]]; simpl in *; lia.
Defined.

(** C2: under the insufficient-data condition every operation returns its
    input table unchanged and raises nothing: [interpolate_rate] when no
    row lies strictly below or none strictly above the target days; the
    two extrapolators when [len(df)] is below the effective
    [min_options_per_expiry], whatever the target.  The effective threshold
    is 2 unless the caller overrides it. *)
Theorem insufficient_data_unchanged :
  forall (df : table) (expiry_date days : Z) (years : float) (kwargs : gmap string pyval),
    ((forall r, In r df -> ~ (Row.days r < days)%Z) \/ (forall r, In r df -> ~ (days < Row.days r)%Z) ->
     interpolate_rate df expiry_date days years = df) /\
    (forall threshold,
       overlay DEFAULT_PARAMS kwargs !! "min_options_per_expiry"%string = Some threshold ->
       py_len_lt (length df) threshold = Ok true ->
       extrapolate_early df expiry_date days years kwargs = Ok df /\
       extrapolate_late df expiry_date days years kwargs = Ok df) /\
    (kwargs !! "min_options_per_expiry"%string = None ->
     overlay DEFAULT_PARAMS kwargs !! "min_options_per_expiry"%string = Some (PyInt 2)).
Proof.
  intros df expiry_date days years kwargs. split; [|split].
  - intros H. apply interpolate_rate_none. now apply interp_neighbors_none.
  - intros threshold H1 H2.
    unfold extrapolate_early, extrapolate_late, extrapolate_early_with, extrapolate_late_with, dict_get.
    rewrite H1. simpl. rewrite H2. simpl. split; reflexivity.
  - intros H. rewrite overlay_lookup, H. apply DEFAULT_PARAMS_min_options.
Qed.

Lemma insufficient_data_unchanged_witness :
  interpolate_rate p1_table 0 5 0.01 = p1_table /\
  extrapolate_early [obs 10 0.02 None None] 0 5 0.01 ∅ = Ok [obs 10 0.02 None None] /\
  extrapolate_late [obs 10 0.02 None None] 0 5 0.01 ∅ = Ok [obs 10 0.02 None None] /\
  overlay DEFAULT_PARAMS ∅ !! "min_options_per_expiry"%string = Some (PyInt 2).
Proof.
  pose proof (insufficient_data_unchanged p1_table 0 5 0.01 ∅) as [Hi [He Hd]].
  pose proof (insufficient_data_unchanged [obs 10 0.02 None None] 0 5 0.01 ∅) as [_ [He' _]].
  split; [|split; [|split]].
  - apply Hi. left. intros r Hr. simpl in Hr.
    destruct Hr as [<-|[<-|[]]]; simpl; lia.
  - apply (He' (PyInt 2)); [apply Hd; reflexivity|reflexivity].
  - apply (He' (PyInt 2)); [apply Hd; reflexivity|reflexivity].
  - apply Hd. reflexivity.
Defined.

(** C3 (as stated, refuted): the interpolated row between a row with
    [reference_price = 100] and a row whose [reference_price] is null
    carries a [reference_price], and it is NaN: the field is present and
    null, not absent. *)
Lemma optional_field_null_not_omitted :
  exists new_row,
    interpolate_rate c3_table 0 20 0.05 = c3_table ++ [new_row] /\
    exists v, Row.reference_price new_row = Some v /\ PrimFloat.is_nan v = true.
Proof.
  eexists. split; [reflexivity|]. eexists. split; [reflexivity|]. vm_compute. reflexivity.
Qed.

(** C3 (amended): in every row synthesized by the three operations,
    [reference_price] (resp. [forward_ratio]) is present exactly when both
    basis rows carry that key, whatever the values, and it then holds the
    estimate computed from the two basis values: the linear interpolation
    [vb + f * (va - vb)] in [interpolate_rate], [max(0.0, v1 - (first.days
    - days) * (v2 - v1) / days_diff)] in [extrapolate_early], and
    [max(vl, vl + (days - last.days) * (vl - vs) / days_diff)] in
    [extrapolate_late].  A null (NaN) basis value is not a reason to omit
    the field: in an interpolated row the field is then present and NaN. *)
Theorem optional_field_presence :
  forall (df : table) (expiry_date days : Z) (years : float) (kwargs : gmap string pyval)
         (new_row : Row.t),
    (interpolate_rate df expiry_date days years = df ++ [new_row] ->
     exists before after, interp_neighbors df days = Some (before, after) /\
       let f := (float_of_Z (days - Row.days before)
                 / float_of_Z (Row.days after - Row.days before))%float in
       (is_Some (Row.reference_price new_row) <->
        is_Some (Row.reference_price before) /\ is_Some (Row.reference_price after)) /\
       (is_Some (Row.forward_ratio new_row) <->
        is_Some (Row.forward_ratio before) /\ is_Some (Row.forward_ratio after)) /\
       (forall vb va, Row.reference_price before = Some vb -> Row.reference_price after = Some va ->
        Row.reference_price new_row = Some (vb + f * (va - vb))%float /\
        ((is_nan vb || is_nan va)%bool = true -> is_nan (vb + f * (va - vb))%float = true)) /\
       (forall vb va, Row.forward_ratio before = Some vb -> Row.forward_ratio after = Some va ->
        Row.forward_ratio new_row = Some (vb + f * (va - vb))%float /\
        ((is_nan vb || is_nan va)%bool = true -> is_nan (vb + f * (va - vb))%float = true))) /\
    (extrapolate_early df expiry_date days years kwargs = Ok (df ++ [new_row]) ->
     exists first second, early_anchors df = Ok (first, second) /\
       let proj v1 v2 := (v1 - float_of_Z (Row.days first - days)
                          * ((v2 - v1) / float_of_Z (Row.days second - Row.days first)))%float in
       (is_Some (Row.reference_price new_row) <->
        is_Some (Row.reference_price first) /\ is_Some (Row.reference_price second)) /\
       (is_Some (Row.forward_ratio new_row) <->
        is_Some (Row.forward_ratio first) /\ is_Some (Row.forward_ratio second)) /\
       (forall v1 v2, Row.reference_price first = Some v1 -> Row.reference_price second = Some v2 ->
        Row.reference_price new_row = Some (py_max 0 (proj v1 v2))) /\
       (forall v1 v2, Row.forward_ratio first = Some v1 -> Row.forward_ratio second = Some v2 ->
        Row.forward_ratio new_row = Some (py_max 0 (proj v1 v2)))) /\
    (extrapolate_late df expiry_date days years kwargs = Ok (df ++ [new_row]) ->
     exists last second_last, late_anchors df = Ok (last, second_last) /\
       let proj vl vs := (vl + float_of_Z (days - Row.days last)
                          * ((vl - vs) / float_of_Z (Row.days last - Row.days second_last)))%float in
       (is_Some (Row.reference_price new_row) <->
        is_Some (Row.reference_price last) /\ is_Some (Row.reference_price second_last)) /\
       (is_Some (Row.forward_ratio new_row) <->
        is_Some (Row.forward_ratio last) /\ is_Some (Row.forward_ratio second_last)) /\
       (forall vl vs, Row.reference_price last = Some vl -> Row.reference_price second_last = Some vs ->
        Row.reference_price new_row = Some (py_max vl (proj vl vs))) /\
       (forall vl vs, Row.forward_ratio last = Some vl -> Row.forward_ratio second_last = Some vs ->
        Row.forward_ratio new_row = Some (py_max vl (proj vl vs)))).
Proof.
  intros df expiry_date days years kwargs new_row. split; [|split].
  - unfold interpolate_rate.
    destruct (interp_neighbors df days) as [[before after]|]; intros E.
    + apply app_inv_head in E. injection E as <-.
      exists before, after. split; [reflexivity|]. cbv zeta. simpl. unfold interp_value.
      split; [|split; [|split]].
      * destruct (Row.reference_price before), (Row.reference_price after);
          split; intros H; try (destruct H as [? ?]); try done;
          try (destruct H as [x Hx]; discriminate).
      * destruct (Row.forward_ratio before), (Row.forward_ratio after);
          split; intros H; try (destruct H as [? ?]); try done;
          try (destruct H as [x Hx]; discriminate).
      * intros vb va -> ->. split; [reflexivity|apply interp_formula_nan].
      * intros vb va -> ->. split; [reflexivity|apply interp_formula_nan].
    + now destruct (app_one_neq df new_row).
  - unfold extrapolate_early, extrapolate_early_with, dict_get.
    destruct (_ !! _); simpl; [|discriminate].
    destruct (py_len_lt _ _) as [[]|]; simpl; try discriminate.
    + intros E. injection E as E. now destruct (app_one_neq df new_row).
    + destruct (early_anchors df) as [[first second]|]; simpl; [|discriminate].
      intros E. injection E as E. apply app_inv_head in E. injection E as <-.
      exists first, second. split; [reflexivity|]. cbv zeta. simpl. unfold early_value.
      split; [|split; [|split]].
      * destruct (Row.reference_price first), (Row.reference_price second);
          split; intros H; try (destruct H as [? ?]); try done;
          try (destruct H as [x Hx]; discriminate).
      * destruct (Row.forward_ratio first), (Row.forward_ratio second);
          split; intros H; try (destruct H as [? ?]); try done;
          try (destruct H as [x Hx]; discriminate).
      * intros v1 v2 -> ->. reflexivity.
      * intros v1 v2 -> ->. reflexivity.
  - unfold extrapolate_late, extrapolate_late_with, dict_get.
    destruct (_ !! _); simpl; [|discriminate].
    destruct (py_len_lt _ _) as [[]|]; simpl; try discriminate.
    + intros E. injection E as E. now destruct (app_one_neq df new_row).
    + destruct (late_anchors df) as [[last second_last]|]; simpl; [|discriminate].
      intros E. injection E as E. apply app_inv_head in E. injection E as <-.
      exists last, second_last. split; [reflexivity|]. cbv zeta. simpl. unfold late_value.
      split; [|split; [|split]].
      * destruct (Row.reference_price last), (Row.reference_price second_last);
          split; intros H; try (destruct H as [? ?]); try done;
          try (destruct H as [x Hx]; discriminate).
      * destruct (Row.forward_ratio last), (Row.forward_ratio second_last);
          split; intros H; try (destruct H as [? ?]); try done;
          try (destruct H as [x Hx]; discriminate).
      * intros vl vs -> ->. reflexivity.
      * intros vl vs -> ->. reflexivity.
Qed.

Lemma optional_field_presence_witness :
  exists new_row v,
    interpolate_rate c3_table 0 20 0.05 = c3_table ++ [new_row] /\
    Row.reference_price new_row = Some v /\ is_nan v = true /\
    Row.forward_ratio new_row = None.
Proof.
  set (nr := interp_new_row (obs 10 0.02 (Some 100%float) None) (obs 30 0.04 (Some nan) None)
               0 20 0.05).
  destruct (proj1 (optional_field_presence c3_table 0%Z 20%Z 0.05%float ∅ nr) eq_refl)
    as (before & after & E & Href & Hfwd & Vref & _).
  vm_compute in E. injection E as <- <-.
  destruct (Vref 100%float nan eq_refl eq_refl) as [V N].
  eexists nr, _. split; [reflexivity|]. split; [exact V|]. split.
  - apply N. reflexivity.
  - reflexivity.
Defined.

(** C4 (as stated, refuted): the extrapolation anchors can have a zero
    days difference (the two lowest rows of [dup_low_table] both have
    days 10), while on that very table the interpolation neighbours around
    days 20 have different days. *)
Lemma degenerate_gap_in_extrapolation :
  (exists first second, early_anchors dup_low_table = Ok (first, second) /\
     (Row.days second - Row.days first = 0)%Z) /\
  (exists before after, interp_neighbors dup_low_table 20 = Some (before, after) /\
     Row.days after <> Row.days before).
Proof.
  split.
  - do 2 eexists. split; [reflexivity|]. reflexivity.
  - do 2 eexists. split; [reflexivity|]. simpl. lia.
Qed.

(** C4 (amended): in [interpolate_rate] the denominator
    [after.days - before.days] is always strictly positive, duplicate days
    included, since [before.days < days < after.days].  In the extrapolators
    the anchor denominator is never negative but is zero when the two
    lowest-days (resp. highest-days) rows share their days, which duplicate
    days make possible; the code does not guard against it: a call that
    passes the row-count gate returns normally, appending a row whose rate
    is computed with a division by zero ([+-inf] or NaN as numpy gives). *)
Theorem degenerate_gap_locations :
  (forall (df : table) (days : Z) (before after : Row.t),
     interp_neighbors df days = Some (before, after) ->
     (Row.days before < days < Row.days after)%Z /\ (0 < Row.days after - Row.days before)%Z) /\
  (forall (df : table) (first second : Row.t),
     early_anchors df = Ok (first, second) -> (0 <= Row.days second - Row.days first)%Z) /\
  (forall (df : table) (last second_last : Row.t),
     late_anchors df = Ok (last, second_last) -> (0 <= Row.days last - Row.days second_last)%Z) /\
  (forall (df : table) (expiry_date days : Z) (years : float) (kwargs : gmap string pyval)
          (threshold : pyval) (first second : Row.t),
     overlay DEFAULT_PARAMS kwargs !! "min_options_per_expiry"%string = Some threshold ->
     py_len_lt (length df) threshold = Ok false ->
     early_anchors df = Ok (first, second) ->
     Row.days first = Row.days second ->
     exists new_row,
       extrapolate_early df expiry_date days years kwargs = Ok (df ++ [new_row]) /\
       Row.discount_rate new_row =
         py_max 0 (Row.discount_rate first - float_of_Z (Row.days first - days)
                   * ((Row.discount_rate second - Row.discount_rate first) / 0))%float) /\
  (forall (df : table) (expiry_date days : Z) (years : float) (kwargs : gmap string pyval)
          (threshold : pyval) (last second_last : Row.t),
     overlay DEFAULT_PARAMS kwargs !! "min_options_per_expiry"%string = Some threshold ->
     py_len_lt (length df) threshold = Ok false ->
     late_anchors df = Ok (last, second_last) ->
     Row.days last = Row.days second_last ->
     exists new_row,
       extrapolate_late df expiry_date days years kwargs = Ok (df ++ [new_row]) /\
       Row.discount_rate new_row =
         py_max 0 (py_min 0.2 (Row.discount_rate last + float_of_Z (days - Row.days last)
                   * ((Row.discount_rate last - Row.discount_rate second_last) / 0)))%float) /\
  (exists first second, early_anchors dup_low_table = Ok (first, second) /\
     (Row.days second - Row.days first = 0)%Z /\
     ((Row.discount_rate second - Row.discount_rate first)
      / float_of_Z (Row.days second - Row.days first))%float = infinity /\
     extrapolate_early dup_low_table 0 5 1 ∅
     = Ok (dup_low_table ++ [early_new_row first second 0 5 1])) /\
  (exists last second_last, late_anchors dup_high_table = Ok (last, second_last) /\
     (Row.days last - Row.days second_last = 0)%Z /\
     ((Row.discount_rate last - Row.discount_rate second_last)
      / float_of_Z (Row.days last - Row.days second_last))%float = neg_infinity /\
     extrapolate_late dup_high_table 0 40 1 ∅
     = Ok (dup_high_table ++ [late_new_row last second_last 0 40 1])).
Proof.
  split; [|split; [|split; [|split; [|split; [|split]]]]].
  - intros df days before after H.
    destruct (interp_neighbors_spec _ _ _ _ H) as (_ & Lb & _ & _ & La & _). lia.
  - intros df first second H. destruct (early_anchors_spec _ _ _ H) as (rest & _ & L & _). lia.
  - intros df last second_last H. destruct (late_anchors_spec _ _ _ H) as (rest & _ & L & _). lia.
  - intros df expiry_date days years kwargs threshold first second H1 H2 A D.
    exists (early_new_row first second expiry_date days years). split.
    + exact (extrapolate_early_with_pass _ df expiry_date days years threshold first second H1 H2 A).
    + simpl. unfold early_projection. rewrite <- D, Z.sub_diag, float_of_Z_0. reflexivity.
  - intros df expiry_date days years kwargs threshold last second_last H1 H2 A D.
    exists (late_new_row last second_last expiry_date days years). split.
    + exact (extrapolate_late_with_pass _ df expiry_date days years threshold last second_last H1 H2 A).
    + simpl. unfold late_projection. rewrite <- D, Z.sub_diag, float_of_Z_0. reflexivity.
  - do 2 eexists. split; [reflexivity|]. split; [reflexivity|]. split; vm_compute; reflexivity.
  - do 2 eexists. split; [reflexivity|]. split; [reflexivity|]. split; vm_compute; reflexivity.
Qed.

Lemma degenerate_gap_locations_witness :
  exists new_row,
    extrapolate_early dup_low_table 0 5 1 ∅ = Ok (dup_low_table ++ [new_row]) /\
    Row.discount_rate new_row
    = py_max 0 (0.02 - float_of_Z (10 - 5) * ((0.03 - 0.02) / 0))%float.
Proof.
  assert (H1 : overlay DEFAULT_PARAMS ∅ !! "min_options_per_expiry"%string = Some (PyInt 2))
    by (vm_compute; reflexivity).
  destruct degenerate_gap_locations as (_ & _ & _ & He & _).
  exact (He dup_low_table 0%Z 5%Z 1%float ∅ (PyInt 2)
            (obs 10 0.02 None None) (obs 10 0.03 None None)
            H1 eq_refl eq_refl eq_refl).
Defined.

Lemma extrapolate_early_pass (df : table) (expiry_date days : Z) (years : float)
    (kwargs : gmap string pyval) (threshold : pyval) :
  (2 <= length df)%nat ->
  overlay DEFAULT_PARAMS kwargs !! "min_options_per_expiry"%string = Some threshold ->
  py_len_lt (length df) threshold = Ok false ->
  exists first second, early_anchors df = Ok (first, second) /\
    extrapolate_early df expiry_date days years kwargs
    = Ok (df ++ [early_new_row first second expiry_date days years]).
Proof.
  intros L H1 H2. destruct (early_anchors_ok df L) as (first & second & E).
  exists first, second. split; [exact E|]. eapply extrapolate_early_with_pass; eauto.
Qed.

Lemma extrapolate_late_pass (df : table) (expiry_date days : Z) (years : float)
    (kwargs : gmap string pyval) (threshold : pyval) :
  (2 <= length df)%nat ->
  overlay DEFAULT_PARAMS kwargs !! "min_options_per_expiry"%string = Some threshold ->
  py_len_lt (length df) threshold = Ok false ->
  exists last second_last, late_anchors df = Ok (last, second_last) /\
    extrapolate_late df expiry_date days years kwargs
    = Ok (df ++ [late_new_row last second_last expiry_date days years]).
Proof.
  intros L H1 H2. destruct (late_anchors_ok df L) as (last & second_last & E).
  exists last, second_last. split; [exact E|]. eapply extrapolate_late_with_pass; eauto.
Qed.

(** C5: on a table with at least two rows that passes the row-count gate
    (under the default configuration: any table of two rows or more),
    [extrapolate_late] appends a row whose rate is
    [last.rate + (days - last.days) * slope], [slope = (last.rate -
    second_last.rate) / (last.days - second_last.days)], with [last] and
    [second_last] the two highest-days rows, clamped into [[0.0, 0.2]].
    With [second_last = {300, 0.05}], [last = {365, 0.18}] and days 730 the
    rate is exactly 0.2. *)
Theorem extrapolate_late_rate :
  (forall (df : table) (expiry_date days : Z) (years : float) (kwargs : gmap string pyval)
          (threshold : pyval),
    (2 <= length df)%nat ->
    overlay DEFAULT_PARAMS kwargs !! "min_options_per_expiry"%string = Some threshold ->
    py_len_lt (length df) threshold = Ok false ->
    exists last second_last rest new_row,
      late_anchors df = Ok (last, second_last) /\
      Permutation df (last :: second_last :: rest) /\
      (Row.days second_last <= Row.days last)%Z /\
      (forall r, In r rest -> (Row.days r <= Row.days second_last)%Z) /\
      extrapolate_late df expiry_date days years kwargs = Ok (df ++ [new_row]) /\
      Row.discount_rate new_row =
        py_max 0 (py_min 0.2
          (Row.discount_rate last + float_of_Z (days - Row.days last)
             * ((Row.discount_rate last - Row.discount_rate second_last)
                / float_of_Z (Row.days last - Row.days second_last))))%float /\
      (0 <=? Row.discount_rate new_row)%float = true /\
      (Row.discount_rate new_row <=? 0.2)%float = true) /\
  (exists new_row,
    extrapolate_late p4_table 0 730 2 ∅ = Ok (p4_table ++ [new_row]) /\
    Row.discount_rate new_row = 0.2%float).
Proof.
  split.
  - intros df expiry_date days years kwargs threshold L H1 H2.
    destruct (extrapolate_late_pass df expiry_date days years kwargs threshold L H1 H2)
      as (last & second_last & A & E).
    destruct (late_anchors_spec _ _ _ A) as (rest & P & Hl & Hr).
    exists last, second_last, rest, (late_new_row last second_last expiry_date days years).
    repeat split; try assumption; simpl; apply py_clamp_band.
  - eexists. split; [reflexivity|]. vm_compute. reflexivity.
Qed.

Lemma extrapolate_late_rate_witness :
  exists new_row, extrapolate_late p4_table 0 730 2 ∅ = Ok (p4_table ++ [new_row]) /\
    (Row.discount_rate new_row <=? 0.2)%float = true.
Proof.
  destruct (proj1 extrapolate_late_rate p4_table 0%Z 730%Z 2%float ∅ (PyInt 2))
    as (last & second_last & rest & new_row & _ & _ & _ & _ & E & _ & _ & B).
  - simpl. lia.
  - reflexivity.
  - reflexivity.
  - exists new_row. split; [exact E|exact B].
Defined.

(** C6: on a table with at least two rows that passes the row-count gate,
    [extrapolate_early] appends a row whose rate is the backward projection
    [first.rate - (first.days - days) * slope], [slope = (second.rate -
    first.rate) / (second.days - first.days)], from the two lowest-days
    rows, floored at 0.0 with no ceiling: exactly 0.0 when the projection is
    negative, the projection itself when it is positive.  [reference_price]
    and [forward_ratio], when both anchors carry them, get the same
    projection and floor. *)
Theorem extrapolate_early_rate :
  forall (df : table) (expiry_date days : Z) (years : float) (kwargs : gmap string pyval)
         (threshold : pyval),
    (2 <= length df)%nat ->
    overlay DEFAULT_PARAMS kwargs !! "min_options_per_expiry"%string = Some threshold ->
    py_len_lt (length df) threshold = Ok false ->
    exists first second rest new_row,
      early_anchors df = Ok (first, second) /\
      Permutation df (first :: second :: rest) /\
      (Row.days first <= Row.days second)%Z /\
      (forall r, In r rest -> (Row.days second <= Row.days r)%Z) /\
      extrapolate_early df expiry_date days years kwargs = Ok (df ++ [new_row]) /\
      let project (v1 v2 : float) :=
        (v1 - float_of_Z (Row.days first - days)
                * ((v2 - v1) / float_of_Z (Row.days second - Row.days first)))%float in
      let raw := project (Row.discount_rate first) (Row.discount_rate second) in
      Row.discount_rate new_row = py_max 0 raw /\
      (0 <=? Row.discount_rate new_row)%float = true /\
      ((raw <? 0)%float = true -> Row.discount_rate new_row = 0%float) /\
      ((0 <? raw)%float = true -> Row.discount_rate new_row = raw) /\
      (forall v1 v2, Row.reference_price first = Some v1 -> Row.reference_price second = Some v2 ->
         Row.reference_price new_row = Some (py_max 0 (project v1 v2))) /\
      (forall v1 v2, Row.forward_ratio first = Some v1 -> Row.forward_ratio second = Some v2 ->
         Row.forward_ratio new_row = Some (py_max 0 (project v1 v2))).
Proof.
  intros df expiry_date days years kwargs threshold L H1 H2.
  destruct (extrapolate_early_pass df expiry_date days years kwargs threshold L H1 H2)
    as (first & second & A & E).
  destruct (early_anchors_spec _ _ _ A) as (rest & P & Hl & Hr).
  exists first, second, rest, (early_new_row first second expiry_date days years).
  repeat split; try assumption; simpl; unfold early_projection.
  - apply py_max_zero_nonneg.
  - apply py_max_neg.
  - intros H. unfold py_max. now rewrite H.
  - intros v1 v2 -> ->. reflexivity.
  - intros v1 v2 -> ->. reflexivity.
Qed.

Lemma extrapolate_early_rate_witness :
  exists new_row,
    extrapolate_early [obs 10 0.01 None None; obs 20 0.05 None None] 0 0 0 ∅
    = Ok ([obs 10 0.01 None None; obs 20 0.05 None None] ++ [new_row]) /\
    Row.discount_rate new_row = 0%float.
Proof.
  destruct (extrapolate_early_rate [obs 10 0.01 None None; obs 20 0.05 None None]
              0%Z 0%Z 0%float ∅ (PyInt 2))
    as (first & second & rest & new_row & A & _ & _ & _ & E & _ & _ & Hneg & _).
  - simpl. lia.
  - reflexivity.
  - reflexivity.
  - exists new_row. split; [exact E|]. apply Hneg.
    vm_compute in A. injection A as <- <-. vm_compute. reflexivity.
Defined.

(** C7: in [extrapolate_late], a [reference_price] (resp. [forward_ratio])
    carried by both anchors is the forward linear projection floored at
    the last observed value and nothing else: never below [last]'s value,
    equal to the projection whenever the projection is above it.  With
    [last.reference_price = 100] and a projection of exactly 95, the
    synthesized [reference_price] is 100. *)
Theorem extrapolate_late_price_floor :
  (forall (df : table) (expiry_date days : Z) (years : float) (kwargs : gmap string pyval)
          (threshold : pyval),
    (2 <= length df)%nat ->
    overlay DEFAULT_PARAMS kwargs !! "min_options_per_expiry"%string = Some threshold ->
    py_len_lt (length df) threshold = Ok false ->
    exists last second_last new_row,
      late_anchors df = Ok (last, second_last) /\
      extrapolate_late df expiry_date days years kwargs = Ok (df ++ [new_row]) /\
      let project (vl vs : float) :=
        (vl + float_of_Z (days - Row.days last)
                * ((vl - vs) / float_of_Z (Row.days last - Row.days second_last)))%float in
      (forall vl vs, Row.reference_price last = Some vl -> Row.reference_price second_last = Some vs ->
         exists v, Row.reference_price new_row = Some v /\ v = py_max vl (project vl vs) /\
           (v <? vl)%float = false /\ ((vl <? project vl vs)%float = true -> v = project vl vs)) /\
      (forall vl vs, Row.forward_ratio last = Some vl -> Row.forward_ratio second_last = Some vs ->
         exists v, Row.forward_ratio new_row = Some v /\ v = py_max vl (project vl vs) /\
           (v <? vl)%float = false /\ ((vl <? project vl vs)%float = true -> v = project vl vs))) /\
  (exists new_row,
    extrapolate_late p5_table 0 370 1 ∅ = Ok (p5_table ++ [new_row]) /\
    (100 + float_of_Z (370 - 365) * ((100 - 101) / float_of_Z (365 - 364)))%float = 95%float /\
    Row.reference_price new_row = Some 100%float).
Proof.
  split.
  - intros df expiry_date days years kwargs threshold L H1 H2.
    destruct (extrapolate_late_pass df expiry_date days years kwargs threshold L H1 H2)
      as (last & second_last & A & E).
    exists last, second_last, (late_new_row last second_last expiry_date days years).
    split; [exact A|]. split; [exact E|]. simpl. unfold late_value, late_projection.
    split; intros vl vs -> ->; eexists; (split; [reflexivity|]); (split; [reflexivity|]);
      (split; [apply py_max_not_below|]); intros H; unfold py_max; now rewrite H.
  - eexists. split; [reflexivity|]. split; vm_compute; reflexivity.
Qed.

Lemma extrapolate_late_price_floor_witness :
  exists new_row, extrapolate_late p5_table 0 370 1 ∅ = Ok (p5_table ++ [new_row]) /\
    exists v, Row.reference_price new_row = Some v /\ (v <? 100)%float = false.
Proof.
  destruct (proj1 extrapolate_late_price_floor p5_table 0%Z 370%Z 1%float ∅ (PyInt 2))
    as (last & second_last & new_row & A & E & Href & _).
  - simpl. lia.
  - reflexivity.
  - reflexivity.
  - exists new_row. split; [exact E|].
    vm_compute in A. injection A as <- <-.
    destruct (Href 100%float 101%float eq_refl eq_refl) as (v & Hv & _ & Hb & _).
    exists v. split; [exact Hv|exact Hb].
Defined.

(** C8: each operation returns the input rows unchanged and in their
    order, followed by at most one appended row; the input table is a value
    that no operation modifies. *)
Theorem operations_append_only :
  forall (df : table) (expiry_date days : Z) (years : float) (kwargs : gmap string pyval),
    (interpolate_rate df expiry_date days years = df \/
     exists r, interpolate_rate df expiry_date days years = df ++ [r]) /\
    (forall out, extrapolate_early df expiry_date days years kwargs = Ok out ->
     out = df \/ exists r, out = df ++ [r]) /\
    (forall out, extrapolate_late df expiry_date days years kwargs = Ok out ->
     out = df \/ exists r, out = df ++ [r]).
Proof.
  intros df expiry_date days years kwargs. split; [|split].
  - unfold interpolate_rate. destruct (interp_neighbors df days) as [[before after]|].
    + right. eexists. reflexivity.
    + now left.
  - intros out. unfold extrapolate_early, extrapolate_early_with, dict_get.
    destruct (_ !! _); simpl; [|discriminate].
    destruct (py_len_lt _ _) as [[]|]; simpl; try discriminate.
    + intros E. injection E as <-. now left.
    + destruct (early_anchors df) as [[first second]|]; simpl; [|discriminate].
      intros E. injection E as <-. right. eexists. reflexivity.
  - intros out. unfold extrapolate_late, extrapolate_late_with, dict_get.
    destruct (_ !! _); simpl; [|discriminate].
    destruct (py_len_lt _ _) as [[]|]; simpl; try discriminate.
    + intros E. injection E as <-. now left.
    + destruct (late_anchors df) as [[last second_last]|]; simpl; [|discriminate].
      intros E. injection E as <-. right. eexists. reflexivity.
Qed.

Lemma operations_append_only_witness :
  exists r, extrapolate_late p4_table 0 730 2 ∅ = Ok (p4_table ++ [r]).
Proof.
  pose proof (operations_append_only p4_table 0%Z 730%Z 2%float ∅) as (_ & _ & Hl).
  assert (E0 : extrapolate_late p4_table 0 730 2 ∅
               = Ok (p4_table ++ [late_new_row (obs 365 0.18 None None) (obs 300 0.05 None None)
                                    0 730 2])) by (vm_compute; reflexivity).
  destruct (Hl _ E0) as [E|[r E]].
  - exfalso. exact (app_one_neq _ _ (eq_sym E)).
  - exists r. rewrite E0, E. reflexivity.
Defined.

(** C9: the extrapolators read the configuration only through
    [min_options_per_expiry]: two override mappings that agree on that key
    (both omitting it included) give identical results on every table and
    target, whatever their other keys; an override of the key takes
    precedence over [DEFAULT_PARAMS], whose value for it is 2. *)
Theorem extrapolation_reads_only_min_options :
  (forall kwargs1 kwargs2 : gmap string pyval,
     kwargs1 !! "min_options_per_expiry"%string = kwargs2 !! "min_options_per_expiry"%string ->
     forall (df : table) (expiry_date days : Z) (years : float),
       extrapolate_early df expiry_date days years kwargs1
       = extrapolate_early df expiry_date days years kwargs2 /\
       extrapolate_late df expiry_date days years kwargs1
       = extrapolate_late df expiry_date days years kwargs2) /\
  (forall (kwargs : gmap string pyval) (v : pyval),
     kwargs !! "min_options_per_expiry"%string = Some v ->
     overlay DEFAULT_PARAMS kwargs !! "min_options_per_expiry"%string = Some v) /\
  DEFAULT_PARAMS !! "min_options_per_expiry"%string = Some (PyInt 2).
Proof.
  split; [|split].
  - intros kwargs1 kwargs2 H df expiry_date days years.
    assert (Ho : overlay DEFAULT_PARAMS kwargs1 !! "min_options_per_expiry"%string
                 = overlay DEFAULT_PARAMS kwargs2 !! "min_options_per_expiry"%string)
      by (rewrite !overlay_lookup; now rewrite H).
    unfold extrapolate_early, extrapolate_late, extrapolate_early_with, extrapolate_late_with,
      dict_get.
    now rewrite Ho.
  - intros kwargs v H. now rewrite overlay_lookup, H.
  - apply DEFAULT_PARAMS_min_options.
Qed.

Lemma extrapolation_reads_only_min_options_witness :
  extrapolate_early p4_table 0 5 0 {[ "debug"%string := PyBool false ]}
  = extrapolate_early p4_table 0 5 0 ∅ /\
  overlay DEFAULT_PARAMS {[ "min_options_per_expiry"%string := PyInt 3 ]}
    !! "min_options_per_expiry"%string = Some (PyInt 3).
Proof.
  split.
  - apply (proj1 extrapolation_reads_only_min_options). reflexivity.
  - apply (proj1 (proj2 extrapolation_reads_only_min_options)). reflexivity.
Defined.

Lemma build_params_spec (kwargs : gmap string pyval) (h : heap) :
  h !! DEFAULT_PARAMS_loc = Some DEFAULT_PARAMS ->
  let '(params, h1) := build_params kwargs h in
  h1 !!! params = overlay DEFAULT_PARAMS kwargs /\ h1 !! DEFAULT_PARAMS_loc = Some DEFAULT_PARAMS.
Proof.
  intros H. unfold build_params, dict_copy, dict_update, overlay.
  set (l' := fresh (dom h)).
  assert (Hne : l' <> DEFAULT_PARAMS_loc).
  { intros E. apply (is_fresh (dom h)). fold l'. rewrite E. apply elem_of_dom. now exists DEFAULT_PARAMS. }
  split.
  - rewrite lookup_total_insert_eq, lookup_total_insert_eq.
    rewrite (lookup_total_correct _ _ _ H). reflexivity.
  - rewrite lookup_insert_ne by congruence. rewrite lookup_insert_ne by congruence. exact H.
Qed.

Lemma run_call_spec (c : call) (h : heap) :
  h !! DEFAULT_PARAMS_loc = Some DEFAULT_PARAMS ->
  fst (run_call c h) = call_result c /\ snd (run_call c h) !! DEFAULT_PARAMS_loc = Some DEFAULT_PARAMS.
Proof.
  intros H. destruct c as [df e d y|df e d y kw|df e d y kw]; unfold run_call, call_result.
  - split; [reflexivity|exact H].
  - unfold extrapolate_early_st. pose proof (build_params_spec kw h H) as B.
    destruct (build_params kw h) as [params h1]. destruct B as [B1 B2].
    cbv beta iota. cbn [fst snd]. rewrite B1. split; [reflexivity|exact B2].
  - unfold extrapolate_late_st. pose proof (build_params_spec kw h H) as B.
    destruct (build_params kw h) as [params h1]. destruct B as [B1 B2].
    cbv beta iota. cbn [fst snd]. rewrite B1. split; [reflexivity|exact B2].
Qed.

Lemma run_calls_spec (cs : list call) (h : heap) :
  h !! DEFAULT_PARAMS_loc = Some DEFAULT_PARAMS ->
  fst (run_calls cs h) = map call_result cs /\
  snd (run_calls cs h) !! DEFAULT_PARAMS_loc = Some DEFAULT_PARAMS.
Proof.
  revert h. induction cs as [|c cs IH]; intros h H; simpl; [split; [reflexivity|exact H]|].
  pose proof (run_call_spec c h H) as [R1 R2].
  destruct (run_call c h) as [out h1]. simpl in R1, R2.
  specialize (IH h1 R2). destruct (run_calls cs h1) as [outs h2]. simpl in *.
  destruct IH as [-> I2]. subst out. split; [reflexivity|exact I2].
Qed.

(** C10: no call of the extrapolators changes the [DEFAULT_PARAMS]
    object: each call copies it to a fresh dictionary and updates the
    copy.  For every sequence of calls with any overrides, starting from
    the loaded configuration, [DEFAULT_PARAMS] still holds its original
    entries at the end, and every call returns what it returns on its own
    against the original defaults, so no call's overrides reach a later
    call. *)
Theorem default_params_never_mutated :
  forall cs : list call,
    fst (run_calls cs init_heap) = map call_result cs /\
    snd (run_calls cs init_heap) !! DEFAULT_PARAMS_loc = Some DEFAULT_PARAMS.
Proof.
  intros cs. apply run_calls_spec. unfold init_heap. apply lookup_singleton_eq.
Qed.


(* ------------------------------------------------------------------ *)
(** ** Further properties of the curve filler *)

(** What a successful extrapolation appended. *)
Lemma extrapolate_early_appended (df : table) (expiry_date days : Z) (years : float)
    (kwargs : gmap string pyval) (new_row : Row.t) :
  extrapolate_early df expiry_date days years kwargs = Ok (df ++ [new_row]) ->
  exists first second, early_anchors df = Ok (first, second) /\
    new_row = early_new_row first second expiry_date days years.
Proof.
  unfold extrapolate_early, extrapolate_early_with, dict_get.
  destruct (_ !! _); simpl; [|discriminate].
  destruct (py_len_lt _ _) as [[]|]; simpl; try discriminate.
  - intros E. injection E as E. now destruct (app_one_neq df new_row).
  - destruct (early_anchors df) as [[first second]|]; simpl; [|discriminate].
    intros E. injection E as E. apply app_inv_head in E. injection E as <-. eauto.
Qed.

Lemma extrapolate_late_appended (df : table) (expiry_date days : Z) (years : float)
    (kwargs : gmap string pyval) (new_row : Row.t) :
  extrapolate_late df expiry_date days years kwargs = Ok (df ++ [new_row]) ->
  exists last second_last, late_anchors df = Ok (last, second_last) /\
    new_row = late_new_row last second_last expiry_date days years.
Proof.
  unfold extrapolate_late, extrapolate_late_with, dict_get.
  destruct (_ !! _); simpl; [|discriminate].
  destruct (py_len_lt _ _) as [[]|]; simpl; try discriminate.
  - intros E. injection E as E. now destruct (app_one_neq df new_row).
  - destruct (late_anchors df) as [[last second_last]|]; simpl; [|discriminate].
    intros E. injection E as E. apply app_inv_head in E. injection E as <-. eauto.
Qed.

(** [iloc[0]] and [iloc[1]] fail exactly on tables of fewer than two rows. *)
Lemma early_anchors_raise (df : table) (err : exc) :
  early_anchors df = Raise err <-> (length df < 2)%nat /\ err = IndexError.
Proof.
  unfold early_anchors, iloc. pose proof (sort_values_length true df) as L.
  destruct (sort_values true df) as [|f [|s rest]]; simpl in L |- *; split.
  - intros H. injection H as <-. split; [lia|reflexivity].
  - intros [_ ->]. reflexivity.
  - intros H. injection H as <-. split; [lia|reflexivity].
  - intros [_ ->]. reflexivity.
  - discriminate.
  - intros [H _]. lia.
Qed.

Lemma late_anchors_raise (df : table) (err : exc) :
  late_anchors df = Raise err <-> (length df < 2)%nat /\ err = IndexError.
Proof.
  unfold late_anchors, iloc. pose proof (sort_values_length false df) as L.
  destruct (sort_values false df) as [|f [|s rest]]; simpl in L |- *; split.
  - intros H. injection H as <-. split; [lia|reflexivity].
  - intros [_ ->]. reflexivity.
  - intros H. injection H as <-. split; [lia|reflexivity].
  - intros [_ ->]. reflexivity.
  - discriminate.
  - intros [H _]. lia.
Qed.

(** [len(df) < v] raises only for a string or None. *)
Lemma py_len_lt_raise (n : nat) (v : pyval) (err : exc) :
  py_len_lt n v = Raise err <-> ((exists s, v = PyStr s) \/ v = PyNone) /\ err = TypeError.
Proof.
  destruct v; simpl; split; intros H;
    try discriminate; try (injection H as <-);
    try (destruct H as [[[s Hs]|Hs] ->]; discriminate);
    try (destruct H as [_ ->]; reflexivity); eauto.
Qed.

Lemma overlay_min_options (kwargs : gmap string pyval) :
  exists v, overlay DEFAULT_PARAMS kwargs !! "min_options_per_expiry"%string = Some v.
Proof.
  rewrite overlay_lookup, DEFAULT_PARAMS_min_options. destruct (kwargs !! _); eauto.
Qed.

(** X1: whenever the table has a row below and a row above the target,
    [interpolate_rate] appends a row carrying the given expiry date, days
    and years, the method tag "interpolated" and None in every
    option-market column.  Nothing checks whether the target days are
    already in the table: interpolating at an observed date appends a
    second row with those days. *)
Theorem interpolate_rate_appended_row :
  forall (df : table) (expiry_date days : Z) (years : float),
    (exists r, In r df /\ (Row.days r < days)%Z) ->
    (exists r, In r df /\ (days < Row.days r)%Z) ->
    exists new_row, interpolate_rate df expiry_date days years = df ++ [new_row] /\
      Row.expiry_date new_row = expiry_date /\ Row.days new_row = days /\
      Row.years new_row = years /\ Row.method new_row = "interpolated"%string /\
      market_fields_null new_row.
Proof.
  intros df expiry_date days years [b [Hb Lb]] [a [Ha La]].
  destruct (interp_neighbors df days) as [[before after]|] eqn:E.
  - exists (interp_new_row before after expiry_date days years).
    rewrite (interpolate_rate_some _ _ _ _ _ _ E). repeat split.
  - apply interp_neighbors_none in E as [H|H];
      [destruct (H b Hb Lb)|destruct (H a Ha La)].
Qed.

Lemma interpolate_rate_appended_row_witness :
  In (obs 20 0.03 None None) dense_table /\
  exists new_row, interpolate_rate dense_table 0 20 1 = dense_table ++ [new_row] /\
    Row.days new_row = 20%Z.
Proof.
  split; [simpl; tauto|].
  destruct (interpolate_rate_appended_row dense_table 0%Z 20%Z 1%float)
    as (new_row & E & _ & D & _).
  - exists (obs 10 0.02 None None). split; [simpl; tauto|simpl; lia].
  - exists (obs 30 0.04 None None). split; [simpl; tauto|simpl; lia].
  - exists new_row. split; [exact E|exact D].
Defined.



(** X3: the extrapolators never raise [KeyError] (the threshold key is
    always found, in the overrides or in [DEFAULT_PARAMS]).  With [v] the
    effective threshold, a call raises exactly in two cases: [TypeError]
    when [v] is a string or None, and [IndexError] when the gate lets a
    table of fewer than two rows through (a threshold of 1 or less). *)
Theorem extrapolation_errors :
  forall (df : table) (expiry_date days : Z) (years : float) (kwargs : gmap string pyval),
    (exists v, overlay DEFAULT_PARAMS kwargs !! "min_options_per_expiry"%string = Some v) /\
    forall (v : pyval) (err : exc),
      overlay DEFAULT_PARAMS kwargs !! "min_options_per_expiry"%string = Some v ->
      (extrapolate_early df expiry_date days years kwargs = Raise err <->
       (((exists s, v = PyStr s) \/ v = PyNone) /\ err = TypeError) \/
       (py_len_lt (length df) v = Ok false /\ (length df < 2)%nat /\ err = IndexError)) /\
      (extrapolate_late df expiry_date days years kwargs = Raise err <->
       (((exists s, v = PyStr s) \/ v = PyNone) /\ err = TypeError) \/
       (py_len_lt (length df) v = Ok false /\ (length df < 2)%nat /\ err = IndexError)).
Proof.
  intros df expiry_date days years kwargs. split; [apply overlay_min_options|].
  intros v err Hv.
  unfold extrapolate_early, extrapolate_late, extrapolate_early_with, extrapolate_late_with,
    dict_get.
  rewrite Hv. simpl.
  destruct (py_len_lt (length df) v) as [[]|e0] eqn:P; simpl.
  - assert (NT : ~ (((exists s, v = PyStr s) \/ v = PyNone) /\ err = TypeError)).
    { intros [[[s ->]| ->] _]; discriminate. }
    split; split; intros H; try discriminate;
      destruct H as [H|[H _]]; [tauto|discriminate|tauto|discriminate].
  - assert (NT : ~ (((exists s, v = PyStr s) \/ v = PyNone) /\ err = TypeError)).
    { intros [[[s ->]| ->] _]; discriminate. }
    split.
    + destruct (early_anchors df) as [[first second]|e1] eqn:A; simpl;
        split; intros H; try discriminate.
      * destruct H as [H|(_ & L & ->)]; [tauto|].
        apply early_anchors_spec in A as (rest & PA & _).
        apply Permutation_length in PA. simpl in PA. lia.
      * injection H as ->. right. apply early_anchors_raise in A as [L ->].
        split; [reflexivity|split; [exact L|reflexivity]].
      * destruct H as [H|(_ & L & ->)]; [tauto|].
        apply early_anchors_raise in A as [_ ->]. reflexivity.
    + destruct (late_anchors df) as [[last second_last]|e1] eqn:A; simpl;
        split; intros H; try discriminate.
      * destruct H as [H|(_ & L & ->)]; [tauto|].
        apply late_anchors_spec in A as (rest & PA & _).
        apply Permutation_length in PA. simpl in PA. lia.
      * injection H as ->. right. apply late_anchors_raise in A as [L ->].
        split; [reflexivity|split; [exact L|reflexivity]].
      * destruct H as [H|(_ & L & ->)]; [tauto|].
        apply late_anchors_raise in A as [_ ->]. reflexivity.
  - assert (R : py_len_lt (length df) v = Raise err <->
                ((exists s, v = PyStr s) \/ v = PyNone) /\ err = TypeError)
      by apply py_len_lt_raise.
    rewrite P in R.
    split; split; intros H.
    + left. apply R. injection H as ->. reflexivity.
    + destruct H as [H|[H _]]; [|discriminate]. apply R in H. injection H as ->. reflexivity.
    + left. apply R. injection H as ->. reflexivity.
    + destruct H as [H|[H _]]; [|discriminate]. apply R in H. injection H as ->. reflexivity.
Qed.

Lemma extrapolation_errors_witness :
  extrapolate_early [obs 10 0.02 None None] 0 5 1
    {[ "min_options_per_expiry"%string := PyInt 1 ]} = Raise IndexError /\
  extrapolate_late p4_table 0 400 1
    {[ "min_options_per_expiry"%string := PyNone ]} = Raise TypeError.
Proof.
  assert (H1 : overlay DEFAULT_PARAMS {[ "min_options_per_expiry"%string := PyInt 1 ]}
                 !! "min_options_per_expiry"%string = Some (PyInt 1))
    by (vm_compute; reflexivity).
  assert (H2 : overlay DEFAULT_PARAMS {[ "min_options_per_expiry"%string := PyNone ]}
                 !! "min_options_per_expiry"%string = Some PyNone)
    by (vm_compute; reflexivity).
  split.
  - apply (proj2 (proj1 (proj2 (extrapolation_errors [obs 10 0.02 None None] 0%Z 5%Z 1%float
             {[ "min_options_per_expiry"%string := PyInt 1 ]}) (PyInt 1) IndexError H1))).
    right. split; [reflexivity|]. split; [simpl; lia|reflexivity].
  - apply (proj2 (proj2 (proj2 (extrapolation_errors p4_table 0%Z 400%Z 1%float
             {[ "min_options_per_expiry"%string := PyNone ]}) PyNone TypeError H2))).
    left. split; [right; reflexivity|reflexivity].
Defined.

(** A binary64 value that is not NaN compares equal to itself; NaN
    compares as unordered with everything. *)
Lemma SFcompare_refl (x : spec_float) : x <> S754_nan -> SFcompare x x = Some Eq.
Proof.
  destruct x as [s|s| |s m e]; intros H; simpl; try destruct s; try reflexivity;
    try congruence; rewrite Z.compare_refl; try rewrite Pos.compare_cont_refl; reflexivity.
Qed.

Lemma is_nan_spec (x : float) : is_nan x = true -> Prim2SF x = S754_nan.
Proof.
  unfold is_nan. rewrite FloatAxioms.eqb_spec. unfold SFeqb.
  destruct (Prim2SF x) as [s|s| |s m e] eqn:E; try reflexivity;
    rewrite SFcompare_refl by discriminate; discriminate.
Qed.

Lemma float_ltb_nan_r (a x : float) : is_nan x = true -> (a <? x)%float = false.
Proof.
  intros H. rewrite FloatAxioms.ltb_spec, (is_nan_spec x H). unfold SFltb.
  destruct (Prim2SF a); reflexivity.
Qed.

Lemma float_ltb_nan_l (a x : float) : is_nan x = true -> (x <? a)%float = false.
Proof.
  intros H. rewrite FloatAxioms.ltb_spec, (is_nan_spec x H). unfold SFltb.
  destruct (Prim2SF a); reflexivity.
Qed.

(** X4: a NaN projection (for instance [0 * inf] when two anchors share
    their days and the target equals them) is not propagated: in
    [extrapolate_early], [max(0.0, nan)] makes the rate and the
    reference price 0.0; in [extrapolate_late], [min(0.2, nan)] is 0.2, so
    the rate is the ceiling 0.2, and [max(last, nan)] keeps the last
    reference price. *)
Theorem nan_projection_extrapolation :
  forall (df : table) (expiry_date days : Z) (years : float) (kwargs : gmap string pyval)
         (new_row : Row.t),
    (forall first second : Row.t,
       extrapolate_early df expiry_date days years kwargs = Ok (df ++ [new_row]) ->
       early_anchors df = Ok (first, second) ->
       (is_nan (early_projection first second (Row.discount_rate first)
                  (Row.discount_rate second) days) = true ->
        Row.discount_rate new_row = 0%float) /\
       (forall v1 v2 : float,
          Row.reference_price first = Some v1 -> Row.reference_price second = Some v2 ->
          is_nan (early_projection first second v1 v2 days) = true ->
          Row.reference_price new_row = Some 0%float)) /\
    (forall last second_last : Row.t,
       extrapolate_late df expiry_date days years kwargs = Ok (df ++ [new_row]) ->
       late_anchors df = Ok (last, second_last) ->
       (is_nan (late_projection last second_last (Row.discount_rate last)
                  (Row.discount_rate second_last) days) = true ->
        Row.discount_rate new_row = 0.2%float) /\
       (forall vl vs : float,
          Row.reference_price last = Some vl -> Row.reference_price second_last = Some vs ->
          is_nan (late_projection last second_last vl vs days) = true ->
          Row.reference_price new_row = Some vl)).
Proof.
  intros df expiry_date days years kwargs new_row. split.
  - intros first second E A.
    apply extrapolate_early_appended in E as (f & s & A' & ->).
    rewrite A in A'. injection A' as <- <-. split.
    + intros N. simpl. unfold py_max. now rewrite (float_ltb_nan_r _ _ N).
    + intros v1 v2 H1 H2 N. simpl. unfold early_value. rewrite H1, H2.
      unfold py_max. now rewrite (float_ltb_nan_r _ _ N).
  - intros last second_last E A.
    apply extrapolate_late_appended in E as (l & s & A' & ->).
    rewrite A in A'. injection A' as <- <-. split.
    + intros N. simpl. unfold py_min. rewrite (float_ltb_nan_l _ _ N). reflexivity.
    + intros vl vs H1 H2 N. simpl. unfold late_value. rewrite H1, H2.
      unfold py_max. now rewrite (float_ltb_nan_r _ _ N).
Qed.

Lemma nan_projection_extrapolation_witness :
  Row.discount_rate
    (late_new_row (obs 30 0.03 None None) (obs 30 0.04 None None) 0 30 1) = 0.2%float.
Proof.
  assert (E : extrapolate_late dup_high_table 0 30 1 ∅
              = Ok (dup_high_table
                    ++ [late_new_row (obs 30 0.03 None None) (obs 30 0.04 None None) 0 30 1]))
    by (vm_compute; reflexivity).
  assert (A : late_anchors dup_high_table = Ok (obs 30 0.03 None None, obs 30 0.04 None None))
    by (vm_compute; reflexivity).
  assert (N : is_nan (late_projection (obs 30 0.03 None None) (obs 30 0.04 None None)
                        (Row.discount_rate (obs 30 0.03 None None))
                        (Row.discount_rate (obs 30 0.04 None None)) 30) = true)
    by (vm_compute; reflexivity).
  exact (proj1 (proj2 (nan_projection_extrapolation dup_high_table 0%Z 30%Z 1%float ∅ _)
                  _ _ E A) N).
Defined.

(** Rows of a table whose days are pairwise distinct are told apart by
    their days. *)
Lemma nodup_days_eq (l : table) (x y : Row.t) :
  NoDup (map Row.days l) -> In x l -> In y l -> Row.days x = Row.days y -> x = y.
Proof.
  induction l as [|z l IH]; simpl; [tauto|].
  intros ND Hx Hy E. inversion ND as [|? ? Nz ND']; subst.
  destruct Hx as [<-|Hx], Hy as [<-|Hy]; auto.
  - exfalso. apply Nz. rewrite E. apply list_elem_of_In. now apply in_map.
  - exfalso. apply Nz. rewrite <- E. apply list_elem_of_In. now apply in_map.
Qed.

(** The first two rows of a sort by an order on days are determined by
    the rows, when the days are distinct. *)
Lemma two_extreme_unique (ord : Z -> Z -> Prop)
    (ord_refl : forall a, ord a a) (ord_trans : forall a b c, ord a b -> ord b c -> ord a c)
    (ord_antisym : forall a b, ord a b -> ord b a -> a = b)
    (l : table) (f s f' s' : Row.t) (rest rest' : table) :
  NoDup (map Row.days l) ->
  Permutation l (f :: s :: rest) -> ord (Row.days f) (Row.days s) ->
  (forall r, In r rest -> ord (Row.days s) (Row.days r)) ->
  Permutation l (f' :: s' :: rest') -> ord (Row.days f') (Row.days s') ->
  (forall r, In r rest' -> ord (Row.days s') (Row.days r)) ->
  f = f' /\ s = s'.
Proof.
  intros ND P Hfs Hr P' Hfs' Hr'.
  assert (Low1 : forall b rs, (forall r, In r rs -> ord (Row.days b) (Row.days r)) ->
            forall x, In x (b :: rs) -> ord (Row.days b) (Row.days x)).
  { intros b rs Hb x [<-|Hx]; [apply ord_refl|auto]. }
  assert (Low2 : forall a b rs, ord (Row.days a) (Row.days b) ->
            (forall r, In r rs -> ord (Row.days b) (Row.days r)) ->
            forall x, In x (a :: b :: rs) -> ord (Row.days a) (Row.days x)).
  { intros a b rs Hab Hb x [<-|Hx]; [apply ord_refl|].
    eapply ord_trans; [exact Hab|]. now apply (Low1 b rs). }
  assert (Q : Permutation (f :: s :: rest) (f' :: s' :: rest')) by (rewrite <- P; exact P').
  assert (Ef : f = f').
  { apply (nodup_days_eq l); auto.
    - apply (Permutation_in _ (Permutation_sym P)). now left.
    - apply (Permutation_in _ (Permutation_sym P')). now left.
    - apply ord_antisym.
      + apply (Low2 f s rest Hfs Hr). apply (Permutation_in _ (Permutation_sym Q)). now left.
      + apply (Low2 f' s' rest' Hfs' Hr'). apply (Permutation_in _ Q). now left. }
  subst f'. split; [reflexivity|].
  apply Permutation_cons_inv in Q.
  apply (nodup_days_eq l); auto.
  - apply (Permutation_in _ (Permutation_sym P)). right. now left.
  - apply (Permutation_in _ (Permutation_sym P')). right. now left.
  - apply ord_antisym.
    + apply (Low1 s rest Hr). apply (Permutation_in _ (Permutation_sym Q)). now left.
    + apply (Low1 s' rest' Hr'). apply (Permutation_in _ Q). now left.
Qed.

Lemma interp_neighbors_perm (df df' : table) (days : Z) :
  NoDup (map Row.days df) -> Permutation df df' ->
  interp_neighbors df days = interp_neighbors df' days.
Proof.
  intros ND P.
  assert (I1 : forall r, In r df -> In r df') by (intros r; apply Permutation_in; exact P).
  assert (I2 : forall r, In r df' -> In r df)
    by (intros r; apply Permutation_in; symmetry; exact P).
  destruct (interp_neighbors df days) as [[b a]|] eqn:E1,
    (interp_neighbors df' days) as [[b' a']|] eqn:E2.
  - apply interp_neighbors_spec in E1 as (Ib & Lb & Mb & Ia & La & Ma).
    apply interp_neighbors_spec in E2 as (Ib' & Lb' & Mb' & Ia' & La' & Ma').
    apply I2 in Ib', Ia'.
    assert (b = b').
    { apply (nodup_days_eq df); auto.
      specialize (Mb b' Ib' Lb'). specialize (Mb' b (I1 b Ib) Lb). lia. }
    assert (a = a').
    { apply (nodup_days_eq df); auto.
      specialize (Ma a' Ia' La'). specialize (Ma' a (I1 a Ia) La). lia. }
    now subst.
  - apply interp_neighbors_spec in E1 as (Ib & Lb & _ & Ia & La & _).
    apply interp_neighbors_none in E2 as [H|H];
      [destruct (H b (I1 b Ib) Lb)|destruct (H a (I1 a Ia) La)].
  - apply interp_neighbors_spec in E2 as (Ib & Lb & _ & Ia & La & _).
    apply interp_neighbors_none in E1 as [H|H];
      [destruct (H b' (I2 b' Ib) Lb)|destruct (H a' (I2 a' Ia) La)].
  - reflexivity.
Qed.

Lemma early_anchors_perm (df df' : table) :
  NoDup (map Row.days df) -> Permutation df df' -> early_anchors df = early_anchors df'.
Proof.
  intros ND P. pose proof (Permutation_length P) as L.
  destruct (Nat.lt_ge_cases (length df) 2) as [H|H].
  - rewrite (proj2 (early_anchors_raise df IndexError) (conj H eq_refl)).
    assert (H' : (length df' < 2)%nat) by lia.
    rewrite (proj2 (early_anchors_raise df' IndexError) (conj H' eq_refl)).
    reflexivity.
  - destruct (early_anchors_ok df H) as (f & s & E1).
    assert (H' : (2 <= length df')%nat) by lia.
    destruct (early_anchors_ok df' H') as (f' & s' & E2).
    rewrite E1, E2.
    apply early_anchors_spec in E1 as (rest & P1 & H1 & R1).
    apply early_anchors_spec in E2 as (rest' & P2 & H2 & R2).
    destruct (two_extreme_unique Z.le Z.le_refl Z.le_trans Z.le_antisymm df f s f' s' rest rest'
                ND P1 H1 R1 (Permutation_trans P P2) H2 R2) as [<- <-].
    reflexivity.
Qed.

Lemma late_anchors_perm (df df' : table) :
  NoDup (map Row.days df) -> Permutation df df' -> late_anchors df = late_anchors df'.
Proof.
  intros ND P. pose proof (Permutation_length P) as L.
  destruct (Nat.lt_ge_cases (length df) 2) as [H|H].
  - rewrite (proj2 (late_anchors_raise df IndexError) (conj H eq_refl)).
    assert (H' : (length df' < 2)%nat) by lia.
    rewrite (proj2 (late_anchors_raise df' IndexError) (conj H' eq_refl)).
    reflexivity.
  - destruct (late_anchors_ok df H) as (f & s & E1).
    assert (H' : (2 <= length df')%nat) by lia.
    destruct (late_anchors_ok df' H') as (f' & s' & E2).
    rewrite E1, E2.
    apply late_anchors_spec in E1 as (rest & P1 & H1 & R1).
    apply late_anchors_spec in E2 as (rest' & P2 & H2 & R2).
    assert (O1 : forall a : Z, (a <= a)%Z) by (intros; lia).
    assert (O2 : forall a b c : Z, (b <= a)%Z -> (c <= b)%Z -> (c <= a)%Z) by (intros; lia).
    assert (O3 : forall a b : Z, (b <= a)%Z -> (a <= b)%Z -> a = b) by (intros; lia).
    destruct (two_extreme_unique (fun a b => b <= a)%Z O1 O2 O3 df f s f' s' rest rest'
                ND P1 H1 R1 (Permutation_trans P P2) H2 R2) as [<- <-].
    reflexivity.
Qed.

(** X5: on a table whose days are distinct, [interpolate_rate] does not
    depend on the order of the rows: any reordering of the table gets the
    same row appended (or nothing, on both). *)
Theorem interpolate_rate_order_independent :
  forall (df df' : table) (expiry_date days : Z) (years : float),
    NoDup (map Row.days df) -> Permutation df df' ->
    exists added, interpolate_rate df expiry_date days years = df ++ added /\
      interpolate_rate df' expiry_date days years = df' ++ added.
Proof.
  intros df df' expiry_date days years ND P. unfold interpolate_rate.
  rewrite <- (interp_neighbors_perm df df' days ND P).
  destruct (interp_neighbors df days) as [[before after]|].
  - eexists. split; reflexivity.
  - exists []. rewrite !app_nil_r. split; reflexivity.
Qed.

Lemma interpolate_rate_order_independent_witness :
  exists added, interpolate_rate p1_table 0 20 1 = p1_table ++ added /\
    interpolate_rate [obs 30 0.04 None None; obs 10 0.02 None None] 0 20 1
    = [obs 30 0.04 None None; obs 10 0.02 None None] ++ added.
Proof.
  apply interpolate_rate_order_independent.
  - apply (bool_decide_unpack _). vm_compute. reflexivity.
  - apply perm_swap.
Defined.

(** X6: on a table whose days are distinct, the extrapolators do not
    depend on the order of the rows: any reordering of the table gets the
    same row appended, or raises the same exception. *)
Theorem extrapolation_order_independent :
  forall (df df' : table) (expiry_date days : Z) (years : float) (kwargs : gmap string pyval),
    NoDup (map Row.days df) -> Permutation df df' ->
    same_additions df df' (extrapolate_early df expiry_date days years kwargs)
                          (extrapolate_early df' expiry_date days years kwargs) /\
    same_additions df df' (extrapolate_late df expiry_date days years kwargs)
                          (extrapolate_late df' expiry_date days years kwargs).
Proof.
  intros df df' expiry_date days years kwargs ND P.
  unfold extrapolate_early, extrapolate_late, extrapolate_early_with, extrapolate_late_with,
    dict_get, same_additions.
  rewrite <- (Permutation_length P), <- (early_anchors_perm df df' ND P),
    <- (late_anchors_perm df df' ND P).
  destruct (_ !! _) as [v|]; simpl; [|split; right; eauto].
  destruct (py_len_lt (length df) v) as [[]|err]; simpl.
  - split; left; exists []; rewrite !app_nil_r; split; reflexivity.
  - split.
    + destruct (early_anchors df) as [[first second]|err]; simpl;
        [left; eexists; split; reflexivity|right; eauto].
    + destruct (late_anchors df) as [[last second_last]|err]; simpl;
        [left; eexists; split; reflexivity|right; eauto].
  - split; right; eauto.
Qed.

Lemma extrapolation_order_independent_witness :
  same_additions p4_table [obs 365 0.18 None None; obs 300 0.05 None None]
    (extrapolate_late p4_table 0 730 1 ∅)
    (extrapolate_late [obs 365 0.18 None None; obs 300 0.05 None None] 0 730 1 ∅).
Proof.
  apply (extrapolation_order_independent p4_table _ 0%Z 730%Z 1%float ∅).
  - apply (bool_decide_unpack _). vm_compute. reflexivity.
  - apply perm_swap.
Defined.

(** X7: successive late extrapolations chain.  On a table with distinct
    days, extrapolating at a target beyond every observed days appends a
    row that becomes [last] for the next call, with the previous [last] as
    [second_last]; the days stay distinct. *)
Theorem late_extrapolation_chains :
  forall (df : table) (expiry_date days : Z) (years : float) (kwargs : gmap string pyval)
         (new_row : Row.t),
    NoDup (map Row.days df) ->
    (forall r, In r df -> (Row.days r < days)%Z) ->
    extrapolate_late df expiry_date days years kwargs = Ok (df ++ [new_row]) ->
    NoDup (map Row.days (df ++ [new_row])) /\
    exists last second_last, late_anchors df = Ok (last, second_last) /\
      late_anchors (df ++ [new_row]) = Ok (new_row, last).
Proof.
  intros df expiry_date days years kwargs new_row ND Hlt E.
  apply extrapolate_late_appended in E as (last & second_last & A & Hr).
  assert (Dn : Row.days new_row = days) by (rewrite Hr; reflexivity).
  split.
  { rewrite map_app. apply NoDup_app. split; [exact ND|]. split; [|apply NoDup_singleton].
    intros x Hx Hx2. apply list_elem_of_singleton in Hx2. subst x.
    apply list_elem_of_In, in_map_iff in Hx as (r & Er & Ir).
    specialize (Hlt r Ir). lia. }
  exists last, second_last. split; [exact A|].
  apply late_anchors_spec in A as (rest & P & Hls & Hrest).
  destruct (late_anchors_ok (df ++ [new_row])) as (a & b & A2).
  { rewrite length_app. apply Permutation_length in P. simpl in *. lia. }
  rewrite A2. apply late_anchors_spec in A2 as (rest2 & P2 & Hab & Hrest2).
  assert (Ea : a = new_row).
  { assert (Ia : In a (df ++ [new_row])) by (apply (Permutation_in _ (Permutation_sym P2)); now left).
    apply in_app_or in Ia as [Ia|[<-|[]]]; [|reflexivity].
    exfalso. specialize (Hlt a Ia).
    assert (In new_row (a :: b :: rest2)) as Hn
      by (apply (Permutation_in _ P2); apply in_or_app; right; now left).
    destruct Hn as [<-|[<-|Hn]]; [lia|lia|specialize (Hrest2 _ Hn); lia]. }
  subst a.
  assert (P3 : Permutation df (b :: rest2)).
  { apply (Permutation_cons_inv (a:=new_row)).
    eapply Permutation_trans; [apply Permutation_cons_append|exact P2]. }
  assert (Ib : In b df) by (apply (Permutation_in _ (Permutation_sym P3)); now left).
  assert (Il : In last df) by (apply (Permutation_in _ (Permutation_sym P)); now left).
  assert (H1 : (Row.days last <= Row.days b)%Z).
  { apply (Permutation_in _ P3) in Il as Il'.
    destruct Il' as [->|Il']; [lia|exact (Hrest2 _ Il')]. }
  assert (H2 : (Row.days b <= Row.days last)%Z).
  { apply (Permutation_in _ P) in Ib as Ib'.
    destruct Ib' as [->|[->|Ib']]; [lia|exact Hls|specialize (Hrest _ Ib'); lia]. }
  rewrite (nodup_days_eq df b last ND Ib Il ltac:(lia)). reflexivity.
Qed.

Lemma late_extrapolation_chains_witness :
  exists last second_last, late_anchors p4_table = Ok (last, second_last) /\
    late_anchors (p4_table ++ [late_new_row (obs 365 0.18 None None) (obs 300 0.05 None None)
                                 0 730 1])
    = Ok (late_new_row (obs 365 0.18 None None) (obs 300 0.05 None None) 0 730 1, last).
Proof.
  assert (E : extrapolate_late p4_table 0 730 1 ∅
              = Ok (p4_table ++ [late_new_row (obs 365 0.18 None None) (obs 300 0.05 None None)
                                   0 730 1]))
    by (vm_compute; reflexivity).
  refine (proj2 (late_extrapolation_chains p4_table 0%Z 730%Z 1%float ∅ _ _ _ E)).
  - apply (bool_decide_unpack _). vm_compute. reflexivity.
  - intros r [<-|[<-|[]]]; simpl; lia.
Defined.

(** X8: successive early extrapolations chain.  On a table with distinct
    days, extrapolating at a target before every observed days appends a
    row that becomes [first] for the next call, with the previous [first]
    as [second]; the days stay distinct. *)
Theorem early_extrapolation_chains :
  forall (df : table) (expiry_date days : Z) (years : float) (kwargs : gmap string pyval)
         (new_row : Row.t),
    NoDup (map Row.days df) ->
    (forall r, In r df -> (days < Row.days r)%Z) ->
    extrapolate_early df expiry_date days years kwargs = Ok (df ++ [new_row]) ->
    NoDup (map Row.days (df ++ [new_row])) /\
    exists first second, early_anchors df = Ok (first, second) /\
      early_anchors (df ++ [new_row]) = Ok (new_row, first).
Proof.
  intros df expiry_date days years kwargs new_row ND Hgt E.
  apply extrapolate_early_appended in E as (first & second & A & Hr).
  assert (Dn : Row.days new_row = days) by (rewrite Hr; reflexivity).
  split.
  { rewrite map_app. apply NoDup_app. split; [exact ND|]. split; [|apply NoDup_singleton].
    intros x Hx Hx2. apply list_elem_of_singleton in Hx2. subst x.
    apply list_elem_of_In, in_map_iff in Hx as (r & Er & Ir).
    specialize (Hgt r Ir). lia. }
  exists first, second. split; [exact A|].
  apply early_anchors_spec in A as (rest & P & Hfs & Hrest).
  destruct (early_anchors_ok (df ++ [new_row])) as (a & b & A2).
  { rewrite length_app. apply Permutation_length in P. simpl in *. lia. }
  rewrite A2. apply early_anchors_spec in A2 as (rest2 & P2 & Hab & Hrest2).
  assert (Ea : a = new_row).
  { assert (Ia : In a (df ++ [new_row])) by (apply (Permutation_in _ (Permutation_sym P2)); now left).
    apply in_app_or in Ia as [Ia|[<-|[]]]; [|reflexivity].
    exfalso. specialize (Hgt a Ia).
    assert (In new_row (a :: b :: rest2)) as Hn
      by (apply (Permutation_in _ P2); apply in_or_app; right; now left).
    destruct Hn as [<-|[<-|Hn]]; [lia|lia|specialize (Hrest2 _ Hn); lia]. }
  subst a.
  assert (P3 : Permutation df (b :: rest2)).
  { apply (Permutation_cons_inv (a:=new_row)).
    eapply Permutation_trans; [apply Permutation_cons_append|exact P2]. }
  assert (Ib : In b df) by (apply (Permutation_in _ (Permutation_sym P3)); now left).
  assert (If : In first df) by (apply (Permutation_in _ (Permutation_sym P)); now left).
  assert (H1 : (Row.days b <= Row.days first)%Z).
  { apply (Permutation_in _ P3) in If as If'.
    destruct If' as [->|If']; [lia|exact (Hrest2 _ If')]. }
  assert (H2 : (Row.days first <= Row.days b)%Z).
  { apply (Permutation_in _ P) in Ib as Ib'.
    destruct Ib' as [->|[->|Ib']]; [lia|exact Hfs|specialize (Hrest _ Ib'); lia]. }
  rewrite (nodup_days_eq df b first ND Ib If ltac:(lia)). reflexivity.
Qed.

Lemma early_extrapolation_chains_witness :
  exists first second, early_anchors p4_table = Ok (first, second) /\
    early_anchors (p4_table ++ [early_new_row (obs 300 0.05 None None) (obs 365 0.18 None None)
                                  0 100 1])
    = Ok (early_new_row (obs 300 0.05 None None) (obs 365 0.18 None None) 0 100 1, first).
Proof.
  assert (E : extrapolate_early p4_table 0 100 1 ∅
              = Ok (p4_table ++ [early_new_row (obs 300 0.05 None None) (obs 365 0.18 None None)
                                   0 100 1]))
    by (vm_compute; reflexivity).
  refine (proj2 (early_extrapolation_chains p4_table 0%Z 100%Z 1%float ∅ _ _ _ E)).
  - apply (bool_decide_unpack _). vm_compute. reflexivity.
  - intros r [<-|[<-|[]]]; simpl; lia.
Defined.

(** Multiplying a finite value by zero gives a zero, and subtracting or
    adding a zero leaves a value unchanged up to the sign of zero, which
    the floor [max(0.0, .)] erases. *)
Lemma is_finite_spec (x : float) :
  is_finite x = true -> (exists s, Prim2SF x = S754_zero s) \/ (exists s m e, Prim2SF x = S754_finite s m e).
Proof.
  unfold is_finite, is_nan, is_infinity.
  rewrite (FloatAxioms.eqb_spec x x), (FloatAxioms.eqb_spec (abs x) infinity), FloatAxioms.abs_spec.
  assert (I : Prim2SF infinity = S754_infinity false) by (vm_compute; reflexivity).
  rewrite I. destruct (Prim2SF x) as [s|s| |s m e]; simpl; eauto;
    [destruct s|]; simpl; discriminate.
Qed.

Lemma mul_zero_finite (s : float) :
  is_finite s = true -> exists b, Prim2SF (0 * s)%float = S754_zero b.
Proof.
  intros H. rewrite FloatAxioms.mul_spec.
  assert (Z0 : Prim2SF 0 = S754_zero false) by (vm_compute; reflexivity).
  rewrite Z0. destruct (is_finite_spec s H) as [[b ->]|(b & m & e & ->)]; simpl; eauto.
Qed.

Lemma py_max_zero_of_zero (x : float) (b : bool) : Prim2SF x = S754_zero b -> py_max 0 x = 0%float.
Proof.
  intros H. unfold py_max. rewrite FloatAxioms.ltb_spec, H. destruct b; reflexivity.
Qed.

Lemma py_clamp_zero_of_zero (x : float) (b : bool) :
  Prim2SF x = S754_zero b -> py_max 0 (py_min 0.2 x) = 0%float.
Proof.
  intros H. unfold py_min. rewrite FloatAxioms.ltb_spec, H.
  assert (E : SFltb (S754_zero b) (Prim2SF 0.2) = true) by (destruct b; vm_compute; reflexivity).
  rewrite E. exact (py_max_zero_of_zero x b H).
Qed.

Lemma py_max_sub_zero_mul (v s : float) :
  is_finite s = true -> py_max 0 (v - 0 * s)%float = py_max 0 v.
Proof.
  intros H. destruct (mul_zero_finite s H) as [b Hb].
  destruct (Prim2SF v) as [sv|sv| |sv m e] eqn:Ev.
  - assert (Hz : exists c, Prim2SF (v - 0 * s)%float = S754_zero c).
    { rewrite FloatAxioms.sub_spec, Ev, Hb. unfold SF64sub. simpl.
      destruct sv, b; simpl; eauto. }
    destruct Hz as [c Hz].
    rewrite (py_max_zero_of_zero _ _ Hz), (py_max_zero_of_zero _ _ Ev). reflexivity.
  - f_equal. apply FloatAxioms.Prim2SF_inj. rewrite FloatAxioms.sub_spec, Ev, Hb. reflexivity.
  - f_equal. apply FloatAxioms.Prim2SF_inj. rewrite FloatAxioms.sub_spec, Ev, Hb. reflexivity.
  - f_equal. apply FloatAxioms.Prim2SF_inj. rewrite FloatAxioms.sub_spec, Ev, Hb. reflexivity.
Qed.

Lemma py_clamp_add_zero_mul (v s : float) :
  is_finite s = true -> py_max 0 (py_min 0.2 (v + 0 * s)%float) = py_max 0 (py_min 0.2 v).
Proof.
  intros H. destruct (mul_zero_finite s H) as [b Hb].
  destruct (Prim2SF v) as [sv|sv| |sv m e] eqn:Ev.
  - assert (Hz : exists c, Prim2SF (v + 0 * s)%float = S754_zero c).
    { rewrite FloatAxioms.add_spec, Ev, Hb. unfold SF64add. simpl.
      destruct sv, b; simpl; eauto. }
    destruct Hz as [c Hz].
    rewrite (py_clamp_zero_of_zero _ _ Hz), (py_clamp_zero_of_zero _ _ Ev). reflexivity.
  - do 2 f_equal. apply FloatAxioms.Prim2SF_inj. rewrite FloatAxioms.add_spec, Ev, Hb. reflexivity.
  - do 2 f_equal. apply FloatAxioms.Prim2SF_inj. rewrite FloatAxioms.add_spec, Ev, Hb. reflexivity.
  - do 2 f_equal. apply FloatAxioms.Prim2SF_inj. rewrite FloatAxioms.add_spec, Ev, Hb. reflexivity.
Qed.

(** X9: the extrapolated curve has no jump at its anchor.  Extrapolating
    at exactly the days of [first] ([extrapolate_early]) or of [last]
    ([extrapolate_late]) gives back that row's rate, under the same floor
    (and, late, the same ceiling) as any other target, whenever the slope
    between the two anchors is a finite number. *)
Theorem extrapolation_at_anchor :
  forall (df : table) (expiry_date : Z) (years : float) (kwargs : gmap string pyval)
         (new_row : Row.t),
    (forall first second : Row.t,
       extrapolate_early df expiry_date (Row.days first) years kwargs = Ok (df ++ [new_row]) ->
       early_anchors df = Ok (first, second) ->
       is_finite ((Row.discount_rate second - Row.discount_rate first)
                  / float_of_Z (Row.days second - Row.days first))%float = true ->
       Row.discount_rate new_row = py_max 0 (Row.discount_rate first)) /\
    (forall last second_last : Row.t,
       extrapolate_late df expiry_date (Row.days last) years kwargs = Ok (df ++ [new_row]) ->
       late_anchors df = Ok (last, second_last) ->
       is_finite ((Row.discount_rate last - Row.discount_rate second_last)
                  / float_of_Z (Row.days last - Row.days second_last))%float = true ->
       Row.discount_rate new_row = py_max 0 (py_min 0.2 (Row.discount_rate last))).
Proof.
  intros df expiry_date years kwargs new_row. split.
  - intros first second E A F.
    apply extrapolate_early_appended in E as (f & s & A' & ->).
    rewrite A in A'. injection A' as <- <-.
    simpl. unfold early_projection. rewrite Z.sub_diag, float_of_Z_0.
    exact (py_max_sub_zero_mul _ _ F).
  - intros last second_last E A F.
    apply extrapolate_late_appended in E as (l & s & A' & ->).
    rewrite A in A'. injection A' as <- <-.
    simpl. unfold late_projection. rewrite Z.sub_diag, float_of_Z_0.
    exact (py_clamp_add_zero_mul _ _ F).
Qed.

Lemma extrapolation_at_anchor_witness :
  Row.discount_rate
    (late_new_row (obs 365 0.18 None None) (obs 300 0.05 None None) 0 365 1)
  = py_max 0 (py_min 0.2 0.18).
Proof.
  assert (E : extrapolate_late p4_table 0 (Row.days (obs 365 0.18 None None)) 1 ∅
              = Ok (p4_table ++ [late_new_row (obs 365 0.18 None None) (obs 300 0.05 None None)
                                   0 365 1]))
    by (vm_compute; reflexivity).
  assert (A : late_anchors p4_table = Ok (obs 365 0.18 None None, obs 300 0.05 None None))
    by (vm_compute; reflexivity).
  assert (F : is_finite ((Row.discount_rate (obs 365 0.18 None None)
                          - Row.discount_rate (obs 300 0.05 None None))
                         / float_of_Z (Row.days (obs 365 0.18 None None)
                                       - Row.days (obs 300 0.05 None None)))%float = true)
    by (vm_compute; reflexivity).
  exact (proj2 (extrapolation_at_anchor p4_table 0%Z 1%float ∅ _) _ _ E A F).
Defined.
